(** * Uni Helper: the ingestion-and-processing pipeline

    A shallow embedding of the mailbox poller ([email_handler/poller.py]),
    the processing queue ([processor/queue.py]), the retrying JSON generator
    ([ai/local_model.py], [ai/client.py]) and the classification pipeline
    ([ai/processor.py]), with the properties the specification states about
    them. *)

From Stdlib Require Import ZArith List Bool String Ascii Lia QArith.
Import ListNotations.

Local Open Scope Z_scope.
Set Warnings "-register-all".

(* ================================================================== *)
(** * Python preliminaries: exception classes and results *)
(* ================================================================== *)

Module Py.

(** The exception classes that occur in the modelled code, with the
    class hierarchy of CPython ([ssl], [imaplib], [json] and builtins). *)
Inductive exn_class : Type :=
| BaseException | KeyboardInterrupt | SystemExit
| Exception
| OSError | ConnectionError | ConnectionResetError | BrokenPipeError
| TimeoutError | SSLError | SSLEOFError
| IMAP4_error | IMAP4_abort | IMAP4_readonly
| LookupError | KeyError | IndexError
| ValueError | UnicodeDecodeError | JSONDecodeError
| TypeError | AttributeError | RuntimeError | SqliteError.

Definition exn_eqb (a b : exn_class) : bool :=
  match a, b with
  | BaseException, BaseException | KeyboardInterrupt, KeyboardInterrupt
  | SystemExit, SystemExit | Exception, Exception | OSError, OSError
  | ConnectionError, ConnectionError
  | ConnectionResetError, ConnectionResetError
  | BrokenPipeError, BrokenPipeError | TimeoutError, TimeoutError
  | SSLError, SSLError | SSLEOFError, SSLEOFError
  | IMAP4_error, IMAP4_error | IMAP4_abort, IMAP4_abort
  | IMAP4_readonly, IMAP4_readonly | LookupError, LookupError
  | KeyError, KeyError | IndexError, IndexError | ValueError, ValueError
  | UnicodeDecodeError, UnicodeDecodeError
  | JSONDecodeError, JSONDecodeError | TypeError, TypeError
  | AttributeError, AttributeError | RuntimeError, RuntimeError
  | SqliteError, SqliteError => true
  | _, _ => false
  end.

(** The direct base class ([None] for the root). *)
Definition parent (c : exn_class) : option exn_class :=
  match c with
  | BaseException => None
  | KeyboardInterrupt | SystemExit | Exception => Some BaseException
  | OSError | IMAP4_error | LookupError | ValueError | TypeError
  | AttributeError | RuntimeError | SqliteError => Some Exception
  | ConnectionError | TimeoutError | SSLError => Some OSError
  | ConnectionResetError | BrokenPipeError => Some ConnectionError
  | SSLEOFError => Some SSLError
  | IMAP4_abort => Some IMAP4_error
  | IMAP4_readonly => Some IMAP4_abort
  | KeyError | IndexError => Some LookupError
  | UnicodeDecodeError | JSONDecodeError => Some ValueError
  end.

Fixpoint isinstance_fuel (fuel : nat) (c cls : exn_class) : bool :=
  exn_eqb c cls ||
  match fuel with
  | O => false
  | S k => match parent c with
           | None => false
           | Some p => isinstance_fuel k p cls
           end
  end.

(** [isinstance c cls]: an exception of class [c] is matched by
    [except cls].  The hierarchy above has depth 5. *)
Definition isinstance (c cls : exn_class) : bool := isinstance_fuel 6 c cls.
Arguments isinstance : simpl never.

(** The outcome of a call: a value, or a raised exception. *)
Inductive result (A : Type) : Type :=
| Ok (a : A)
| Raise (e : exn_class).
Arguments Ok {A} a.
Arguments Raise {A} e.

(** [time.sleep(secs)] raises [ValueError] on a negative length. *)
Definition time_sleep (secs : Z) : result unit :=
  if secs <? 0 then Raise ValueError else Ok tt.

End Py.

Import Py.

(* ================================================================== *)
(** * email_handler/poller.py *)
(* ================================================================== *)

Module Poller.

Definition email_id := string.

(** What [poll] reads of a fetched message: the outcome of the subject
    decoding block (lines 155-161), which may raise on a bad header. *)
Record email_message : Type := {
  msg_subject : result string
}.

(** The remote mailbox as [get_unread_emails] sees it in one call:
    the outcome of [select], of [search] together with the split of its
    answer (lines 74-80), and of [fetch] together with the parsing of the
    fetched data (lines 88-97) for each id. *)
Record imap_session : Type := {
  imap_select : result unit;
  imap_search : result (string * list email_id);
  imap_fetch : email_id -> result (string * result email_message)
}.

Definition status_ok (status : string) : bool := String.eqb status "OK".

(** The [for email_id in email_ids] loop of [get_unread_emails]. *)
Fixpoint fetch_each (s : imap_session) (email_ids : list email_id)
    (emails : list (email_id * email_message))
  : result (list (email_id * email_message)) :=
  match email_ids with
  | [] => Ok emails
  | eid :: rest =>
      match imap_fetch s eid with
      | Raise e => Raise e
      | Ok (status, msg_data) =>
          if negb (status_ok status) then fetch_each s rest emails
          else match msg_data with
               | Raise e => Raise e
               | Ok email_message =>
                   fetch_each s rest (emails ++ [(eid, email_message)])
               end
      end
  end.

(** The body of the [try] block of [get_unread_emails].  [self.imap] is
    [None] before the first [connect], and then [self.imap.select] raises
    [AttributeError]. *)
Definition get_unread_emails_try (imap : option imap_session)
  : result (list (email_id * email_message)) :=
  match imap with
  | None => Raise AttributeError
  | Some s =>
      match imap_select s with
      | Raise e => Raise e
      | Ok _ =>
          match imap_search s with
          | Raise e => Raise e
          | Ok (status, email_ids) =>
              if negb (status_ok status) then Ok []
              else match email_ids with
                   | [] => Ok []
                   | _ => fetch_each s email_ids []
                   end
          end
      end
  end.

(** The first [except] clause of [get_unread_emails]. *)
Definition is_connection_error (e : exn_class) : bool :=
  isinstance e SSLError || isinstance e IMAP4_abort
  || isinstance e ConnectionError || isinstance e OSError.

(** [get_unread_emails]: [Ok None] is Python's [None] (reconnect needed),
    [Ok (Some l)] a list; an exception that is not an [Exception]
    propagates. *)
Definition get_unread_emails (imap : option imap_session)
  : result (option (list (email_id * email_message))) :=
  match get_unread_emails_try imap with
  | Ok emails => Ok (Some emails)
  | Raise e =>
      if is_connection_error e then Ok None
      else if isinstance e Exception then Ok (Some [])
      else Raise e
  end.

(** The handler and the idempotency check are caller-supplied; each is
    given by its outcome on a message id. *)
Definition handler := email_id -> email_message -> result unit.
Definition processed_check := email_id -> result bool.

(** What a poll did to the outside world, in order. *)
Inductive poll_event : Type :=
| Skipped (eid : email_id)
| Handled (eid : email_id)
| HandlerErrorLogged (eid : email_id) (e : exn_class).

(** The [for email_id, email_message in emails] loop of [poll]; the
    exception of a handler is caught when it is an [Exception]. *)
Fixpoint poll_each (callback : handler)
    (is_processed_callback : option processed_check)
    (emails : list (email_id * email_message)) (log : list poll_event)
  : result unit * list poll_event :=
  match emails with
  | [] => (Ok tt, log)
  | (eid, email_message) :: rest =>
      let check := match is_processed_callback with
                   | None => Ok false
                   | Some f => f eid
                   end in
      match check with
      | Raise e => (Raise e, log)
      | Ok true =>
          poll_each callback is_processed_callback rest (log ++ [Skipped eid])
      | Ok false =>
          match msg_subject email_message with
          | Raise e => (Raise e, log)
          | Ok _ =>
              match callback eid email_message with
              | Ok _ =>
                  poll_each callback is_processed_callback rest
                            (log ++ [Handled eid])
              | Raise e =>
                  if isinstance e Exception then
                    poll_each callback is_processed_callback rest
                              (log ++ [Handled eid; HandlerErrorLogged eid e])
                  else (Raise e, log ++ [Handled eid])
              end
          end
      end
  end.

(** [poll]: [Ok true] for success, [Ok false] for a connection error. *)
Definition poll (imap : option imap_session) (callback : handler)
    (is_processed_callback : option processed_check)
  : result bool * list poll_event :=
  let body :=
    match get_unread_emails imap with
    | Raise e => (Raise e, [])
    | Ok None => (Ok false, [])
    | Ok (Some []) => (Ok true, [])
    | Ok (Some emails) =>
        match poll_each callback is_processed_callback emails [] with
        | (Ok _, log) => (Ok true, log)
        | (Raise e, log) => (Raise e, log)
        end
    end in
  match body with
  | (Raise e, log) =>
      if isinstance e Exception then (Ok false, log) else (Raise e, log)
  | r => r
  end.

(** ** The polling loop *)

(** What the loop does to the connection and the clock, in order. *)
Inductive action : Type :=
| ActPoll
| ActDisconnect
| ActSleep (secs : Z)
| ActConnect (ok : bool).

(** The object fields and locals of [start_polling]. *)
Record loop_state : Type := {
  is_running : bool;
  max_retry_delay : Z;
  poll_count : Z;
  consecutive_failures : Z;
  retry_delay : Z;
  actions : list action
}.

Definition set_running (b : bool) (st : loop_state) : loop_state :=
  {| is_running := b; max_retry_delay := max_retry_delay st;
     poll_count := poll_count st;
     consecutive_failures := consecutive_failures st;
     retry_delay := retry_delay st; actions := actions st |}.

Definition set_poll_count (n : Z) (st : loop_state) : loop_state :=
  {| is_running := is_running st; max_retry_delay := max_retry_delay st;
     poll_count := n;
     consecutive_failures := consecutive_failures st;
     retry_delay := retry_delay st; actions := actions st |}.

Definition set_failures (n : Z) (st : loop_state) : loop_state :=
  {| is_running := is_running st; max_retry_delay := max_retry_delay st;
     poll_count := poll_count st;
     consecutive_failures := n;
     retry_delay := retry_delay st; actions := actions st |}.

Definition set_delay (d : Z) (st : loop_state) : loop_state :=
  {| is_running := is_running st; max_retry_delay := max_retry_delay st;
     poll_count := poll_count st;
     consecutive_failures := consecutive_failures st;
     retry_delay := d; actions := actions st |}.

Definition act (a : action) (st : loop_state) : loop_state :=
  {| is_running := is_running st; max_retry_delay := max_retry_delay st;
     poll_count := poll_count st;
     consecutive_failures := consecutive_failures st;
     retry_delay := retry_delay st; actions := actions st ++ [a] |}.

(** What the environment answers during one iteration: the result of
    [self.poll(...)] and, when the iteration reconnects, of
    [self.connect()] (which catches every [Exception] itself). *)
Record cycle : Type := {
  cyc_poll : result bool;
  cyc_connect : bool
}.

(** How a block of the loop body ends. *)
Inductive control : Type :=
| Next (st : loop_state)
| Break (st : loop_state)
| Throw (e : exn_class) (st : loop_state).

(** [__init__] followed by the prologue of [start_polling]. *)
Definition initial_state : loop_state :=
  {| is_running := true; max_retry_delay := 60; poll_count := 0;
     consecutive_failures := 0; retry_delay := 5; actions := [] |}.

(** Lines 224-230 and 254-258: back off, and stop at the fifth failure. *)
Definition backoff_and_check (st : loop_state) : control :=
  let st := set_delay (Z.min (retry_delay st * 2) (max_retry_delay st)) st in
  if consecutive_failures st >=? 5 then Break (set_running false st)
  else Next st.

(** The [try] block, lines 203-238. *)
Definition try_block (interval : Z) (st : loop_state) (c : cycle) : control :=
  let st := set_poll_count (poll_count st + 1) st in
  let st := act ActPoll st in
  match cyc_poll c with
  | Raise e => Throw e st
  | Ok false =>
      let st := set_failures (consecutive_failures st + 1) st in
      let st := act ActDisconnect st in
      match time_sleep (retry_delay st) with
      | Raise e => Throw e st
      | Ok _ =>
          let st := act (ActSleep (retry_delay st)) st in
          let st := act (ActConnect (cyc_connect c)) st in
          if cyc_connect c then
            Next (set_delay 5 (set_failures 0 st))
          else backoff_and_check st
      end
  | Ok true =>
      let st := if consecutive_failures st >? 0
                then set_delay 5 (set_failures 0 st) else st in
      match time_sleep interval with
      | Raise e => Throw e st
      | Ok _ => Next (act (ActSleep interval) st)
      end
  end.

(** The [except Exception] handler, lines 244-258. *)
Definition except_exception (st : loop_state) (c : cycle) : control :=
  let st := set_failures (consecutive_failures st + 1) st in
  let st := act ActDisconnect st in
  match time_sleep (retry_delay st) with
  | Raise e => Throw e st
  | Ok _ =>
      let st := act (ActSleep (retry_delay st)) st in
      let st := act (ActConnect (cyc_connect c)) st in
      if negb (cyc_connect c) then backoff_and_check st
      else Next st
  end.

(** One iteration of [while self.is_running]. *)
Definition loop_body (interval : Z) (st : loop_state) (c : cycle) : control :=
  match try_block interval st c with
  | Throw e st' =>
      if isinstance e KeyboardInterrupt then Break (set_running false st')
      else if isinstance e Exception then except_exception st' c
      else Throw e st'
  | r => r
  end.

(** How far a run of [start_polling] got on the answers supplied. *)
Inductive outcome : Type :=
| Returned (st : loop_state)
| Raised (e : exn_class) (st : loop_state)
| StillPolling (st : loop_state).

(** The [while] loop, run against the answers of the environment for the
    successive iterations. *)
Fixpoint polling_loop (interval : Z) (st : loop_state) (cycles : list cycle)
  : outcome :=
  if negb (is_running st) then Returned st
  else match cycles with
       | [] => StillPolling st
       | c :: rest =>
           match loop_body interval st c with
           | Next st' => polling_loop interval st' rest
           | Break st' => Returned st'
           | Throw e st' => Raised e st'
           end
       end.

(** [start_polling]: the loop, then the final [self.disconnect()]. *)
Definition start_polling (interval : Z) (cycles : list cycle) : outcome :=
  match polling_loop interval initial_state cycles with
  | Returned st => Returned (act ActDisconnect st)
  | r => r
  end.



(** The ids a poll passed to the handler, in order. *)
Fixpoint handled_ids (log : list poll_event) : list email_id :=
  match log with
  | [] => []
  | Handled eid :: rest => eid :: handled_ids rest
  | _ :: rest => handled_ids rest
  end.

(** The idempotency check says the message was already processed. *)
Definition already_processed (is_processed_callback : option processed_check)
    (eid : email_id) : bool :=
  match is_processed_callback with
  | None => false
  | Some f => match f eid with
              | Ok true => true
              | _ => false
              end
  end.

(** The ids of a batch that the idempotency check lets through. *)
Definition to_handle (is_processed_callback : option processed_check)
    (emails : list (email_id * email_message)) : list email_id :=
  map fst (filter (fun em => negb (already_processed is_processed_callback
                                                     (fst em))) emails).



(** The state of a loop that may run another iteration. *)
Definition well_formed (st : loop_state) : Prop :=
  is_running st = true /\ max_retry_delay st = 60 /\
  0 <= consecutive_failures st /\
  5 <= retry_delay st <= 60 /\
  (consecutive_failures st = 0 -> retry_delay st = 5).


End Poller.

(* ================================================================== *)
(** * processor/queue.py *)
(* ================================================================== *)

Module Queue.

(** A parsed email as the queue sees it: [submit] and [_worker] read only
    its subject. *)
Record email_data : Type := {
  subject : string
}.

(** A queue entry: the payload and its paired callback, given by its
    outcome on the payload (the timestamp is used for logging only). *)
Record queue_item : Type := {
  item_email_data : email_data;
  item_callback : email_data -> result unit
}.

(** The fields of [ProcessingQueue], with the worker thread made
    explicit: whether it is alive, where it is in its loop, and the item
    it has taken from the queue and not finished yet.  The thread is at
    the loop head ([while self.running]), or it has passed that test and
    sits in [self.queue.get(timeout=1)] ([waiting]), or it holds an item
    ([in_flight]). *)
Record processing_queue : Type := {
  queue : list queue_item;
  running : bool;
  worker_alive : bool;
  waiting : bool;
  in_flight : option queue_item;
  total_processed : Z;
  total_errors : Z
}.

(** [__init__] *)
Definition new_queue : processing_queue :=
  {| queue := []; running := false; worker_alive := false;
     waiting := false; in_flight := None;
     total_processed := 0; total_errors := 0 |}.

(** [start]: idempotent when already running; the new thread begins at
    the loop head. *)
Definition start (q : processing_queue) : processing_queue :=
  if running q then q
  else {| queue := queue q; running := true; worker_alive := true;
          waiting := waiting q; in_flight := in_flight q;
          total_processed := total_processed q;
          total_errors := total_errors q |}.

(** [submit]: raises [RuntimeError] when the queue is not running,
    otherwise appends to the FIFO. *)
Definition submit (it : queue_item) (q : processing_queue)
  : result unit * processing_queue :=
  if negb (running q) then (Raise RuntimeError, q)
  else (Ok tt,
        {| queue := queue q ++ [it]; running := running q;
           worker_alive := worker_alive q; waiting := waiting q;
           in_flight := in_flight q;
           total_processed := total_processed q;
           total_errors := total_errors q |}).

(** The snapshot of [get_status] (without the clock). *)
Record status : Type := {
  queue_size : Z;
  status_total_processed : Z;
  status_total_errors : Z;
  status_running : bool
}.

Definition get_status (q : processing_queue) : status :=
  {| queue_size := Z.of_nat (List.length (queue q));
     status_total_processed := total_processed q;
     status_total_errors := total_errors q;
     status_running := running q |}.

(** One scheduling step of the thread running [_worker]:
    - with an item in hand, run its callback to the end, count it
      (lines 151-171) and go back to the loop head;
    - at the loop head with [self.running] false, leave the loop;
    - at the loop head otherwise, enter [queue.get(timeout=1)];
    - in [queue.get], take the oldest item if there is one; on an empty
      queue the step is the timeout: [queue.Empty] leads back to the
      loop head.  The flag is not looked at here: a worker that sits in
      [queue.get] when the flag is cleared still takes an item.
    A callback exception that is not an [Exception] is caught by no
    handler and ends the thread. *)
Definition worker_step (q : processing_queue) : processing_queue :=
  if negb (worker_alive q) then q
  else match in_flight q with
       | Some it =>
           match item_callback it (item_email_data it) with
           | Ok _ =>
               {| queue := queue q; running := running q;
                  worker_alive := true; waiting := false; in_flight := None;
                  total_processed := total_processed q + 1;
                  total_errors := total_errors q |}
           | Raise e =>
               if isinstance e Exception then
                 {| queue := queue q; running := running q;
                    worker_alive := true; waiting := false;
                    in_flight := None;
                    total_processed := total_processed q;
                    total_errors := total_errors q + 1 |}
               else
                 {| queue := queue q; running := running q;
                    worker_alive := false; waiting := false;
                    in_flight := None;
                    total_processed := total_processed q;
                    total_errors := total_errors q |}
           end
       | None =>
           if waiting q then
             match queue q with
             | [] =>
                 {| queue := []; running := running q;
                    worker_alive := true; waiting := false;
                    in_flight := None;
                    total_processed := total_processed q;
                    total_errors := total_errors q |}
             | it :: rest =>
                 {| queue := rest; running := running q;
                    worker_alive := true; waiting := false;
                    in_flight := Some it;
                    total_processed := total_processed q;
                    total_errors := total_errors q |}
             end
           else if negb (running q) then
             {| queue := queue q; running := running q;
                worker_alive := false; waiting := false; in_flight := None;
                total_processed := total_processed q;
                total_errors := total_errors q |}
           else
             {| queue := queue q; running := running q;
                worker_alive := true; waiting := true; in_flight := None;
                total_processed := total_processed q;
                total_errors := total_errors q |}
       end.

(** [stop(timeout)]: clear the flag, then [join] the worker.  With
    [in_time] the timeout covers what the worker still does: it finishes
    the item in hand, or, sitting in [queue.get], takes one more item if
    there is one and finishes it (or times out on the empty queue); then
    it sees the cleared flag at the loop head and exits.  Three steps
    reach the exit from every place of the loop.  Otherwise [join] gives
    up and the worker is left as it is. *)
Definition stop (in_time : bool) (q : processing_queue) : processing_queue :=
  if negb (running q) then q
  else
    let q := {| queue := queue q; running := false;
                worker_alive := worker_alive q; waiting := waiting q;
                in_flight := in_flight q;
                total_processed := total_processed q;
                total_errors := total_errors q |} in
    if in_time then worker_step (worker_step (worker_step q)) else q.

(** What the two threads do, interleaved: the producer submits, the
    worker takes scheduling steps. *)
Inductive event : Type :=
| Submit (it : queue_item)
| WorkerStep.

Definition apply_event (q : processing_queue) (ev : event) : processing_queue :=
  match ev with
  | Submit it => snd (submit it q)
  | WorkerStep => worker_step q
  end.

Definition run (q : processing_queue) (evs : list event) : processing_queue :=
  fold_left apply_event evs q.

(** The number of items handed to [submit] in a schedule. *)
Fixpoint submitted (evs : list event) : Z :=
  match evs with
  | [] => 0
  | Submit _ :: rest => 1 + submitted rest
  | WorkerStep :: rest => submitted rest
  end.

(** Every callback of the schedule raises only [Exception]s. *)
Definition callback_ok (it : queue_item) : Prop :=
  forall e, item_callback it (item_email_data it) = Raise e ->
            isinstance e Exception = true.

Fixpoint callbacks_ok (evs : list event) : Prop :=
  match evs with
  | [] => True
  | Submit it :: rest => callback_ok it /\ callbacks_ok rest
  | WorkerStep :: rest => callbacks_ok rest
  end.

(** The items the worker has taken or may still take. *)
Definition pending (q : processing_queue) : Z :=
  Z.of_nat (List.length (queue q))
  + match in_flight q with Some _ => 1 | None => 0 end.

(** How many queued items the worker still takes once the flag is
    cleared: one when it sits in [queue.get] with its hands empty, none
    when it holds an item or is at the loop head. *)
Definition still_takes (q : processing_queue) : nat :=
  match in_flight q, waiting q with
  | None, true => 1
  | _, _ => 0
  end.

(** A started queue whose worker is in its loop, with [n] items
    submitted so far: each is counted once, in hand, or still queued. *)
Definition accounted (q : processing_queue) (n : Z) : Prop :=
  running q = true /\ worker_alive q = true
  /\ total_processed q + total_errors q + pending q = n
  /\ Forall callback_ok (queue q)
  /\ (forall it, in_flight q = Some it -> callback_ok it).

End Queue.

(* ================================================================== *)
(** * Python strings and JSON values *)
(* ================================================================== *)

Module Str.

Local Open Scope string_scope.

(** Text is held as its UTF-8 bytes: an ASCII character is one byte,
    any other character a lead byte followed by continuation bytes.  The
    case and whitespace tables below are those of ASCII.  Positions count
    bytes, which agrees with Python where the code finds a position and
    cuts at it in the same text, or passes over ASCII only; a cut at a
    fixed number of characters is [take_chars]. *)

(** The double-quote character, as a one-character string. *)
Definition dq : string := String (ascii_of_nat 34) EmptyString.

Definition lower_char (c : ascii) : ascii :=
  let n := nat_of_ascii c in
  if (Nat.leb 65 n && Nat.leb n 90)%bool then ascii_of_nat (n + 32) else c.

(** [s.lower()] *)
Fixpoint lower (s : string) : string :=
  match s with
  | EmptyString => EmptyString
  | String c t => String (lower_char c) (lower t)
  end.

(** [s.startswith(p)] *)
Definition startswith (s p : string) : bool := String.prefix p s.

(** [kw in s] *)
Fixpoint contains (kw s : string) : bool :=
  (String.prefix kw s ||
   match s with
   | EmptyString => false
   | String _ t => contains kw t
   end)%bool.

Definition is_space (c : ascii) : bool :=
  let n := nat_of_ascii c in
  ((Nat.leb 9 n && Nat.leb n 13) || (Nat.leb 28 n && Nat.leb n 32))%bool.

Fixpoint lstrip (s : string) : string :=
  match s with
  | EmptyString => EmptyString
  | String c t => if is_space c then lstrip t else s
  end.

Fixpoint rev_onto (s acc : string) : string :=
  match s with
  | EmptyString => acc
  | String c t => rev_onto t (String c acc)
  end.

Definition rev (s : string) : string := rev_onto s EmptyString.

Definition rstrip (s : string) : string := rev (lstrip (rev s)).

(** [s.strip()] *)
Definition strip (s : string) : string := rstrip (lstrip s).

(** [s.endswith(p)] *)
Definition endswith (s p : string) : bool := String.prefix (rev p) (rev s).

(** [s[n:]] and [s[:n]] for [n >= 0], and [s[:-n]] for [n > 0]. *)
Definition drop (n : nat) (s : string) : string :=
  String.substring n (String.length s - n) s.

Definition take (n : nat) (s : string) : string := String.substring 0 n s.

(** A byte that continues a character: 10xxxxxx. *)
Definition is_continuation (c : ascii) : bool :=
  let n := nat_of_ascii c in
  (Nat.leb 128 n && Nat.leb n 191)%bool.

(** [s[:n]] at a fixed [n], counted in characters as Python counts: the
    bytes of the first [n] characters. *)
Fixpoint take_chars (n : nat) (s : string) : string :=
  match s with
  | EmptyString => EmptyString
  | String c t =>
      if is_continuation c then String c (take_chars n t)
      else match n with
           | O => EmptyString
           | S k => String c (take_chars k t)
           end
  end.

Definition drop_last (n : nat) (s : string) : string :=
  take (String.length s - n) s.

(** [s.split(sep)] for a non-empty [sep]: [skip] counts the characters of
    a separator still to pass over, [cur] holds the piece being read,
    backwards. *)
Fixpoint split_from (sep : string) (s : string) (skip : nat) (cur : string)
  : list string :=
  match s with
  | EmptyString => [rev cur]
  | String c t =>
      match skip with
      | S k => split_from sep t k cur
      | O =>
          if String.prefix sep s
          then rev cur :: split_from sep t (String.length sep - 1) EmptyString
          else split_from sep t 0 (String c cur)
      end
  end.

Definition split (sep s : string) : list string :=
  split_from sep s 0 EmptyString.

(** [s.find(c)]: the first index of the character, [None] for -1. *)
Fixpoint find (c : ascii) (s : string) : option nat :=
  match s with
  | EmptyString => None
  | String d t =>
      if Ascii.eqb c d then Some O
      else match find c t with
           | Some i => Some (S i)
           | None => None
           end
  end.

(** [s.rfind(c)]: the last index of the character, [None] for -1. *)
Fixpoint rfind (c : ascii) (s : string) : option nat :=
  match s with
  | EmptyString => None
  | String d t =>
      match rfind c t with
      | Some i => Some (S i)
      | None => if Ascii.eqb c d then Some O else None
      end
  end.

(** [s[start:stop]] for non-negative bounds. *)
Definition slice (start stop : nat) (s : string) : string :=
  String.substring start (stop - start) s.

(** [sep.join(parts)] *)
Fixpoint join (sep : string) (parts : list string) : string :=
  match parts with
  | [] => EmptyString
  | [p] => p
  | p :: rest => p ++ sep ++ join sep rest
  end.

End Str.

Module Json.

(** A JSON value as [json.loads] builds it; a dict keeps its items in
    insertion order. *)
Inductive json : Type :=
| JNull
| JBool (b : bool)
| JInt (z : Z)
| JFloat (q : Q)
| JStr (s : string)
| JList (l : list json)
| JDict (d : list (string * json)).

(** Lookup of a key among the items of a dict. *)
Fixpoint assoc (k : string) (d : list (string * json)) : option json :=
  match d with
  | [] => None
  | (k', v) :: rest => if String.eqb k k' then Some v else assoc k rest
  end.

(** [d.get(k)]: [None] for a missing key; only a dict has [get]. *)
Definition get (j : json) (k : string) : result json :=
  match j with
  | JDict d => match assoc k d with
               | Some v => Ok v
               | None => Ok JNull
               end
  | _ => Raise AttributeError
  end.

(** [d.get(k, default)] *)
Definition get_default (j : json) (k : string) (default : json) : result json :=
  match j with
  | JDict d => match assoc k d with
               | Some v => Ok v
               | None => Ok default
               end
  | _ => Raise AttributeError
  end.

(** [d[k]] with a string key: [KeyError] for a missing key, [TypeError]
    on a value that is not a dict. *)
Definition item (j : json) (k : string) : result json :=
  match j with
  | JDict d => match assoc k d with
               | Some v => Ok v
               | None => Raise KeyError
               end
  | _ => Raise TypeError
  end.

(** Truthiness, as [if v] and [not v] test it. *)
Definition truthy (j : json) : bool :=
  match j with
  | JNull => false
  | JBool b => b
  | JInt z => negb (z =? 0)
  | JFloat q => negb (Qeq_bool q 0)
  | JStr s => negb (String.eqb s EmptyString)
  | JList l => match l with [] => false | _ => true end
  | JDict d => match d with [] => false | _ => true end
  end.

(** [v == s] for a string literal [s]. *)
Definition eq_str (j : json) (s : string) : bool :=
  match j with
  | JStr t => String.eqb t s
  | _ => false
  end.

End Json.

(* ================================================================== *)
(** * ai/prompts.py *)
(* ================================================================== *)

Module Prompts.

Import Str.
Local Open Scope string_scope.

(** The templates, with [str.format] written as concatenation; the
    last two are [ASSIGNMENT_CONFIRMATION_TEMPLATE.format] and
    [ERROR_RESPONSE_TEMPLATE.format]. *)

Definition JARVIS_SYSTEM_PROMPT : string :=
  "You are Jarvis, a concise, professional, and witty AI for Fahad.

Responsibilities:
- Organize notes/assignments, track deadlines/reminders, answer queries fast.
- Ask for clarification if details are missing; confirm when tasks are logged.

Style:
- Address the user as " ++ dq ++ "sir" ++ dq ++ " once per message.
- Keep replies brief, prefer bullets, use emojis sparingly (📚 📝 📅 ⏰).
- Always sign off with " ++ dq ++ "- Jarvis" ++ dq ++ ".
".

Definition format_intent_prompt (subject body : string) : string :=
  "Classify the email intent as NOTE, ASSIGNMENT, QUERY, or GENERAL.

Subject: " ++ subject ++ "
Body: " ++ body ++ "

Return JSON:
{
  " ++ dq ++ "intent" ++ dq ++ ": " ++ dq ++ "NOTE|ASSIGNMENT|QUERY|GENERAL" ++ dq ++ ",
  " ++ dq ++ "confidence" ++ dq ++ ": 0.0-1.0,
  " ++ dq ++ "reasoning" ++ dq ++ ": " ++ dq ++ "brief explanation" ++ dq ++ "
}".

Definition format_entity_extraction_assignment
    (subject body current_date : string) : string :=
  "Extract assignment details.

Subject: " ++ subject ++ "
Body: " ++ body ++ "
Current date: " ++ current_date ++ "

Return JSON:
{
  " ++ dq ++ "class_name" ++ dq ++ ": " ++ dq ++ "string or null" ++ dq ++ ",
  " ++ dq ++ "due_date" ++ dq ++ ": " ++ dq ++ "YYYY-MM-DDTHH:MM:SS or null (if date only, set 23:59:00)" ++ dq ++ ",
  " ++ dq ++ "title" ++ dq ++ ": " ++ dq ++ "brief title" ++ dq ++ ",
  " ++ dq ++ "description" ++ dq ++ ": " ++ dq ++ "summary or null" ++ dq ++ ",
  " ++ dq ++ "priority" ++ dq ++ ": " ++ dq ++ "high|medium|low" ++ dq ++ "
}".

Definition format_entity_extraction_note (subject body : string) : string :=
  "Extract note details.

Subject: " ++ subject ++ "
Body: " ++ body ++ "

Return JSON:
{
  " ++ dq ++ "class_name" ++ dq ++ ": " ++ dq ++ "string or null" ++ dq ++ ",
  " ++ dq ++ "content" ++ dq ++ ": " ++ dq ++ "clean summary" ++ dq ++ ",
  " ++ dq ++ "note_type" ++ dq ++ ": " ++ dq ++ "concept|definition|example|general" ++ dq ++ ",
  " ++ dq ++ "tags" ++ dq ++ ": [" ++ dq ++ "tag1" ++ dq ++ ", " ++ dq ++ "tag2" ++ dq ++ ", " ++ dq ++ "tag3" ++ dq ++ "]
}".

Definition format_query_understanding (query : string) : string :=
  "Analyze the query.

Query: " ++ query ++ "

Return JSON:
{
  " ++ dq ++ "query_type" ++ dq ++ ": " ++ dq ++ "assignments_due|notes_search|class_info|general" ++ dq ++ ",
  " ++ dq ++ "time_filter" ++ dq ++ ": " ++ dq ++ "today|tomorrow|this_week|next_week|all|null" ++ dq ++ ",
  " ++ dq ++ "class_filter" ++ dq ++ ": " ++ dq ++ "class name or null" ++ dq ++ ",
  " ++ dq ++ "search_terms" ++ dq ++ ": [" ++ dq ++ "term1" ++ dq ++ ", " ++ dq ++ "term2" ++ dq ++ "]
}".

Definition format_query_response (query data : string) : string :=
  "Respond as Jarvis.

Original Query: " ++ query ++ "
Retrieved Data: " ++ data ++ "

Guidelines: concise, bullet-first, one " ++ dq ++ "sir" ++ dq ++ ", light emojis (📚 📝 📅 ⏰), sign " ++ dq ++ "- Jarvis" ++ dq ++ ", mention if no data and suggest next steps.
".

Definition format_assignment_confirmation
    (class_name title due_date_formatted reminder_date_formatted
     additional_note : string) : string :=
  "Assignment logged, sir.

📚 " ++ class_name ++ " - " ++ title ++ "
📅 Due: " ++ due_date_formatted ++ "
⏰ Reminder set for " ++ reminder_date_formatted ++ "

" ++ additional_note ++ "

- Jarvis
".

Definition format_error_response (error_message suggestion : string) : string :=
  "I encountered an issue processing your request, sir.

❌ " ++ error_message ++ "

" ++ suggestion ++ "

- Jarvis
".

End Prompts.

(* ================================================================== *)
(** * ai/local_model.py *)
(* ================================================================== *)

(** The text-generation backend, as the answers of its successive calls:
    call number [k] (from 0) returns a text or raises. *)
Definition backend := nat -> result string.

Module LocalModel.

Import Str Json.
Local Open Scope string_scope.

(** [generate]: one backend call; any [Exception] becomes the empty
    text.  The second component counts the backend calls made so far. *)
Definition generate (llm : backend) (calls : nat) : result string * nat :=
  match llm calls with
  | Ok text => (Ok (strip text), S calls)
  | Raise e =>
      if isinstance e Exception then (Ok EmptyString, S calls)
      else (Raise e, S calls)
  end.

(** The [for part in parts] loop of [_clean_json_response]. *)
Fixpoint clean_parts (parts : list string) (text : string) : string :=
  match parts with
  | [] => text
  | part :: rest =>
      if startswith (strip part) "json"
      then clean_parts rest (strip (drop 4 part))
      else if startswith (strip part) "{" then strip part
      else clean_parts rest text
  end.

Definition _clean_json_response (text : string) : string :=
  let text := strip text in
  let text := if contains "```" text
              then clean_parts (split "```" text) text else text in
  match find "{" text, rfind "}" text with
  | Some start, Some stop => slice start (stop + 1)%nat text
  | _, _ => text
  end.

(** The five fallback shapes of [_get_fallback_structure]. *)
Definition intent_fallback : json :=
  JDict [("intent", JStr "GENERAL");
         ("confidence", JFloat (3 # 10)%Q);
         ("reasoning", JStr "Fallback - model failed to classify")].

Definition assignment_fallback : json :=
  JDict [("class_name", JNull);
         ("due_date", JNull);
         ("title", JStr "Untitled Assignment");
         ("description", JNull);
         ("priority", JStr "medium")].

Definition note_fallback (user_prompt : string) : json :=
  JDict [("class_name", JNull);
         ("content", JStr (if String.eqb user_prompt EmptyString
                           then "Note content unavailable"
                           else take_chars 200 user_prompt));
         ("note_type", JStr "general");
         ("tags", JList [])].

Definition query_fallback : json :=
  JDict [("query_type", JStr "general");
         ("search_term", JStr EmptyString);
         ("filters", JDict [])].

Definition generic_fallback (user_prompt : string) : json :=
  JDict [("error", JStr "parsing_failed");
         ("raw_prompt", JStr (take_chars 100 user_prompt))].

Definition _get_fallback_structure (system_prompt user_prompt : string) : json :=
  let combined := lower (system_prompt ++ " " ++ user_prompt) in
  if (contains "intent" combined || contains "classify" combined)%bool then
    intent_fallback
  else if (contains "due_date" combined || contains "assignment" combined)%bool
  then assignment_fallback
  else if contains "note" combined then note_fallback user_prompt
  else if contains "query" combined then query_fallback
  else generic_fallback user_prompt.

Section Generator.

(** [json.loads]: [None] stands for [json.JSONDecodeError]. *)
Variable json_loads : string -> option json.

(** What one attempt of [generate_json] reads from a backend text. *)
Definition parsed_response (text : string) : option json :=
  json_loads (_clean_json_response (strip text)).

(** The backend answers its next [n] calls with texts that do not parse. *)
Definition unparseable_from (llm : backend) (calls n : nat) : Prop :=
  forall k, (k < n)%nat ->
    exists text, llm (calls + k)%nat = Ok text /\ parsed_response text = None.

(** The [for attempt in range(retries + 1)] loop of [generate_json],
    with [remaining] iterations to go.  Falling out of the loop returns
    the empty dict of line 130. *)
Fixpoint generate_json_loop (remaining : nat) (attempt retries : Z)
    (system_prompt user_prompt : string) (llm : backend) (calls : nat)
  : result json * nat :=
  match remaining with
  | O => (Ok (JDict []), calls)
  | S k =>
      match generate llm calls with
      | (Raise e, calls') => (Raise e, calls')
      | (Ok response_text, calls') =>
          match json_loads (_clean_json_response response_text) with
          | Some parsed => (Ok parsed, calls')
          | None =>
              if (attempt <? retries)%Z then
                generate_json_loop k (attempt + 1)%Z retries
                                   system_prompt user_prompt llm calls'
              else
                (Ok (_get_fallback_structure system_prompt user_prompt),
                 calls')
          end
      end
  end.

Definition generate_json (system_prompt user_prompt : string) (retries : Z)
    (llm : backend) (calls : nat) : result json * nat :=
  generate_json_loop (Z.to_nat (retries + 1)%Z) 0%Z retries
                     system_prompt user_prompt llm calls.

End Generator.

(** The default of the [retries] argument. *)
Definition default_retries : Z := 2.

End LocalModel.

(* ================================================================== *)
(** * ai/client.py *)
(* ================================================================== *)

Module Client.

Import Str Json.
Local Open Scope string_scope.

Inductive provider : Type := Claude | OpenAI | Local.

Record ai_client : Type := {
  client_provider : provider;
  client_llm : backend
}.

(** [AIClient.generate]: the hosted providers pass the text through and
    re-raise any error; the local model goes through
    [LocalModelManager.generate]. *)
Definition generate (c : ai_client) (calls : nat) : result string * nat :=
  match client_provider c with
  | Local => LocalModel.generate (client_llm c) calls
  | _ => (client_llm c calls, S calls)
  end.

(** The code-fence cleaning of lines 176-184. *)
Definition strip_fences (response_text : string) : string :=
  let t := strip response_text in
  let t := if startswith t "```json" then drop 7 t else t in
  let t := if startswith t "```" then drop 3 t else t in
  let t := if endswith t "```" then drop_last 3 t else t in
  strip t.

Section Generator.

Variable json_loads : string -> option json.

(** [AIClient.generate_json] *)
Definition generate_json (c : ai_client) (system_prompt user_prompt : string)
    (calls : nat) : result json * nat :=
  match client_provider c with
  | Local =>
      LocalModel.generate_json json_loads system_prompt user_prompt
                               LocalModel.default_retries (client_llm c) calls
  | _ =>
      match generate c calls with
      | (Raise e, calls') => (Raise e, calls')
      | (Ok response_text, calls') =>
          match json_loads (strip_fences response_text) with
          | Some parsed => (Ok parsed, calls')
          | None => (Raise JSONDecodeError, calls')
          end
      end
  end.

End Generator.

End Client.

(* ================================================================== *)
(** * ai/processor.py *)
(* ================================================================== *)

Module Processor.

Import Str Json Prompts Client.
Local Open Scope string_scope.

(** The fields of a parsed email the pipeline reads. *)
Record parsed_email : Type := {
  email_id : string;
  subject : string;
  body : string
}.

(** The static reply of the GENERAL branch of [process_email]. *)
Definition general_message : string :=
  "Acknowledged, sir.

I've received your message. If you need me to:
- Save an assignment: Include the due date
- Save notes: Share the content you'd like filed
- Query information: Ask me what you'd like to know

How may I assist you?

- Jarvis
".

(** Lines 385-390: the lookahead window of a named time filter. *)
Definition lookahead_days (time_filter : json) : Z :=
  if eq_str time_filter "today" then 1
  else if eq_str time_filter "tomorrow" then 1
  else if eq_str time_filter "this_week" then 7
  else if eq_str time_filter "next_week" then 14
  else 30.

(** [f"{confidence:.2f}"] accepts numbers (and booleans) only. *)
Definition format_2f_ok (confidence : json) : result unit :=
  match confidence with
  | JInt _ | JFloat _ | JBool _ => Ok tt
  | JStr _ => Raise ValueError
  | _ => Raise TypeError
  end.

(** A value sqlite3 can bind as a statement parameter. *)
Definition bindable (v : json) : bool :=
  match v with
  | JList _ | JDict _ => false
  | _ => true
  end.

Section Pipeline.

(** Library functions the pipeline calls: [json.loads] ([None] for
    [JSONDecodeError]), [datetime.fromisoformat] ([None] for
    [ValueError]), the two [strftime] renderings of a due date and of
    its reminder 24 hours earlier, [str] on a JSON value, and the text
    of [datetime.now().isoformat()]. *)
Variable json_loads : string -> option json.
Variable datetime : Type.
Variable fromisoformat : string -> option datetime.
Variable strftime_due : datetime -> string.
Variable strftime_reminder : datetime -> string.
Variable py_str : json -> string.
Variable current_date : string.

(** The persistent store: the rows of the [classes] and [assignments]
    tables, oldest first. *)
Record assignment_row : Type := {
  row_class_id : Z;
  row_title : json;
  row_due_date : datetime;
  row_description : json;
  row_reminder_hours : Z
}.

Record database : Type := {
  classes : list (Z * string);
  assignments : list assignment_row
}.

(** The state the pipeline threads: the number of backend calls made,
    and the store. *)
Record world : Type := {
  calls : nat;
  db : database
}.

Definition with_calls (n : nat) (w : world) : world :=
  {| calls := n; db := db w |}.

Definition with_db (d : database) (w : world) : world :=
  {| calls := calls w; db := d |}.

(** The collaborators behind the NOTE branch and behind the reads of
    [process_query] (lines 392-401, 405-414 and 420-426). *)
Variable process_note : parsed_email -> world -> result json * world.
Variable upcoming_text : database -> Z -> string.
Variable notes_text : database -> json -> result string.
Variable classes_text : database -> string.

(** [Classes.find_by_name]: the comparison is on lower-cased names. *)
Fixpoint find_by_name (rows : list (Z * string)) (name : string) : option Z :=
  match rows with
  | [] => None
  | (id, n) :: rest =>
      if String.eqb (lower n) (lower name) then Some id
      else find_by_name rest name
  end.

(** [Classes.get_or_create] *)
Definition get_or_create (d : database) (class_name : json)
  : result Z * database :=
  if negb (bindable class_name) then (Raise SqliteError, d)
  else
    let name := match class_name with JStr s => s | v => py_str v end in
    match find_by_name (classes d) name with
    | Some id => (Ok id, d)
    | None =>
        let id := Z.of_nat (List.length (classes d)) + 1 in
        (Ok id, {| classes := classes d ++ [(id, name)];
                   assignments := assignments d |})
    end.

(** [Assignments.create]; the title column is NOT NULL. *)
Definition create_assignment (d : database) (class_id : Z) (title : json)
    (due_date : datetime) (description : json) (reminder_hours : Z)
  : result Z * database :=
  if negb (bindable title && bindable description) then (Raise SqliteError, d)
  else match title with
       | JNull => (Raise SqliteError, d)
       | _ =>
           let row := {| row_class_id := class_id; row_title := title;
                         row_due_date := due_date;
                         row_description := description;
                         row_reminder_hours := reminder_hours |} in
           (Ok (Z.of_nat (List.length (assignments d)) + 1),
            {| classes := classes d; assignments := assignments d ++ [row] |})
       end.

(** [self.ai_client.generate_json(JARVIS_SYSTEM_PROMPT, prompt, ...)] *)
Definition ask_json (c : ai_client) (prompt : string) (w : world)
  : result json * world :=
  match Client.generate_json json_loads c JARVIS_SYSTEM_PROMPT prompt
                             (calls w) with
  | (r, n) => (r, with_calls n w)
  end.

(** The fallback of [classify_intent], lines 75-79. *)
Definition classify_fallback : json :=
  JDict [("intent", JStr "GENERAL");
         ("confidence", JFloat (1 # 2)%Q);
         ("reasoning", JStr "Failed to classify, defaulting to GENERAL")].

Definition classify_intent (c : ai_client) (subject body : string) (w : world)
  : result json * world :=
  match ask_json c (format_intent_prompt subject body) w with
  | (Ok result, w') => (Ok result, w')
  | (Raise e, w') =>
      if isinstance e Exception then (Ok classify_fallback, w')
      else (Raise e, w')
  end.

Definition extract_assignment_entities (c : ai_client) (subject body : string)
    (w : world) : result json * world :=
  match ask_json c (format_entity_extraction_assignment
                      subject body current_date) w with
  | (Ok result, w') => (Ok result, w')
  | (Raise e, w') =>
      if isinstance e Exception then
        (Ok (JDict [("class_name", JNull);
                    ("due_date", JNull);
                    ("title", JStr (if String.eqb subject EmptyString
                                    then "Untitled Assignment" else subject));
                    ("description", JStr (take_chars 200 body));
                    ("priority", JStr "medium")]), w')
      else (Raise e, w')
  end.

(** The two failure outcomes of [process_assignment]. *)
Definition no_due_date_result : json :=
  JDict [("success", JBool false);
         ("error", JStr "no_due_date");
         ("message", JStr (format_error_response
            "I couldn't find a due date in your email."
            "Please include the deadline (e.g., 'due October 20th at 11:59 PM')."))].

Definition invalid_due_date_result : json :=
  JDict [("success", JBool false);
         ("error", JStr "invalid_due_date");
         ("message", JStr (format_error_response
            "I couldn't parse the due date."
            "Please use a clear format like 'October 20, 2024 at 11:59 PM'."))].

(** [datetime.fromisoformat(entities['due_date'])] under the bare
    [except]: a value that is not a string raises [TypeError] there. *)
Definition parse_due_date (v : json) : option datetime :=
  match v with
  | JStr s => fromisoformat s
  | _ => None
  end.

(** Lines 181-219 of [process_assignment]: persist and confirm. *)
Definition save_assignment (entities : json) (due_date : datetime) (w : world)
  : result json * world :=
  match get entities "class_name" with
  | Raise e => (Raise e, w)
  | Ok cn =>
      let class_name := if truthy cn then cn else JStr "General" in
      match get_or_create (db w) class_name with
      | (Raise e, d) => (Raise e, with_db d w)
      | (Ok class_id, d) =>
          let w := with_db d w in
          match item entities "title" with
          | Raise e => (Raise e, w)
          | Ok title =>
              match get entities "description" with
              | Raise e => (Raise e, w)
              | Ok description =>
                  match create_assignment (db w) class_id title due_date
                                          description 24 with
                  | (Raise e, d) => (Raise e, with_db d w)
                  | (Ok assignment_id, d) =>
                      let w := with_db d w in
                      match get entities "priority" with
                      | Raise e => (Raise e, w)
                      | Ok priority =>
                          let additional_note :=
                            if eq_str priority "high"
                            then "⚠️  This appears to be high priority. I recommend starting soon."
                            else EmptyString in
                          let message :=
                            format_assignment_confirmation
                              (py_str class_name) (py_str title)
                              (strftime_due due_date)
                              (strftime_reminder due_date)
                              additional_note in
                          (Ok (JDict [("success", JBool true);
                                      ("assignment_id", JInt assignment_id);
                                      ("message", JStr message)]), w)
                      end
                  end
              end
          end
      end
  end.

Definition process_assignment (c : ai_client) (p : parsed_email) (w : world)
  : result json * world :=
  match extract_assignment_entities c (subject p) (body p) w with
  | (Raise e, w') => (Raise e, w')
  | (Ok entities, w') =>
      match get entities "due_date" with
      | Raise e => (Raise e, w')
      | Ok due =>
          if negb (truthy due) then (Ok no_due_date_result, w')
          else match parse_due_date due with
               | None => (Ok invalid_due_date_result, w')
               | Some due_date => save_assignment entities due_date w'
               end
      end
  end.

(** The fallback of the query analysis, lines 374-379. *)
Definition query_analysis_fallback : json :=
  JDict [("query_type", JStr "general");
         ("time_filter", JNull);
         ("class_filter", JNull);
         ("search_terms", JList [])].

(** Lines 381-431 of [process_query]: the data fetched for a query. *)
Definition fetch_relevant_data (d : database) (query_analysis : json)
  : result string :=
  match item query_analysis "query_type" with
  | Raise e => Raise e
  | Ok query_type =>
      if eq_str query_type "assignments_due" then
        match item query_analysis "time_filter" with
        | Raise e => Raise e
        | Ok time_filter => Ok (upcoming_text d (lookahead_days time_filter))
        end
      else if eq_str query_type "notes_search" then
        match item query_analysis "search_terms" with
        | Raise e => Raise e
        | Ok search_terms =>
            if truthy search_terms then notes_text d search_terms
            else Ok "Please specify what you'd like to search for."
        end
      else if eq_str query_type "class_info" then Ok (classes_text d)
      else Ok "General query - no specific data retrieved."
  end.

Definition process_query (c : ai_client) (p : parsed_email) (w : world)
  : result json * world :=
  let query_prompt := format_query_understanding (body p) in
  let (query_analysis, w) :=
    match ask_json c query_prompt w with
    | (Ok result, w') => (result, w')
    | (Raise _, w') => (query_analysis_fallback, w')
    end in
  match fetch_relevant_data (db w) query_analysis with
  | Raise e => (Raise e, w)
  | Ok data_str =>
      let (response, n) :=
        match Client.generate c (calls w) with
        | (Ok text, n) => (text, n)
        | (Raise _, n) => (data_str ++ "

- Jarvis", n)
        end in
      (Ok (JDict [("success", JBool true); ("message", JStr response)]),
       with_calls n w)
  end.

Definition process_email (c : ai_client) (p : parsed_email) (w : world)
  : result json * world :=
  match classify_intent c (subject p) (body p) w with
  | (Raise e, w') => (Raise e, w')
  | (Ok intent_result, w') =>
      match item intent_result "intent" with
      | Raise e => (Raise e, w')
      | Ok intent =>
          match item intent_result "confidence" with
          | Raise e => (Raise e, w')
          | Ok confidence =>
              match format_2f_ok confidence with
              | Raise e => (Raise e, w')
              | Ok _ =>
                  if eq_str intent "ASSIGNMENT" then process_assignment c p w'
                  else if eq_str intent "NOTE" then process_note p w'
                  else if eq_str intent "QUERY" then process_query c p w'
                  else (Ok (JDict [("success", JBool true);
                                   ("message", JStr general_message)]), w')
              end
          end
      end
  end.

(** A result dictionary that carries a message string. *)
Definition has_message (r : json) : Prop :=
  exists d m, r = JDict d /\ assoc "message" d = Some (JStr m).

End Pipeline.

Arguments calls {datetime} w.
Arguments db {datetime} w.
Arguments classes {datetime} d.
Arguments assignments {datetime} d.
Arguments with_calls {datetime} n w.
Arguments with_db {datetime} d w.

End Processor.

(* ================================================================== *)
(** * Sample inputs *)
(* ================================================================== *)

Module Samples.

Import Poller.
Local Open Scope string_scope.





Definition plain_message : email_message := {| msg_subject := Ok "hello" |}.

(** A mailbox with three unseen messages. *)
Definition three_mail_session : imap_session :=
  {| imap_select := Ok tt;
     imap_search := Ok ("OK", ["1"; "2"; "3"]);
     imap_fetch := fun _ => Ok ("OK", Ok plain_message) |}.



(** An iteration whose poll and reconnect both fail. *)
Definition failed_cycle : cycle := {| cyc_poll := Ok false; cyc_connect := false |}.

(** Three queue entries; the callback of the second raises. *)
Definition ok_item (subj : string) : Queue.queue_item :=
  {| Queue.item_email_data := {| Queue.subject := subj |};
     Queue.item_callback := fun _ => Ok tt |}.

Definition bad_item (subj : string) : Queue.queue_item :=
  {| Queue.item_email_data := {| Queue.subject := subj |};
     Queue.item_callback := fun _ => Raise ValueError |}.

(** The producer submits three items before the worker is scheduled. *)
Definition burst : list Queue.event :=
  [Queue.Submit (ok_item "a"); Queue.Submit (bad_item "b");
   Queue.Submit (ok_item "c")].

(** The same, with the worker scheduled long enough to take and finish
    all three before the queue is stopped. *)
Definition drained : list Queue.event :=
  burst ++ repeat Queue.WorkerStep 9.

(** ** The generator *)

Import Str Json.

(** A reply that is valid JSON: an intent classification. *)
Definition query_intent_text : string :=
  "{" ++ dq ++ "intent" ++ dq ++ ": " ++ dq ++ "QUERY" ++ dq ++ ", "
  ++ dq ++ "confidence" ++ dq ++ ": 0.9}".

(** A reply that is valid JSON: an assignment whose due date is not in
    ISO form. *)
Definition vague_assignment_text : string :=
  "{" ++ dq ++ "title" ++ dq ++ ": " ++ dq ++ "Essay" ++ dq ++ ", "
  ++ dq ++ "due_date" ++ dq ++ ": " ++ dq ++ "next Friday" ++ dq ++ "}".

(** A stand-in for [json.loads] that agrees with it on the texts used
    below: it accepts the empty object and the two replies above, and
    rejects the prose replies. *)
Definition sample_json_loads (text : string) : option json :=
  if String.eqb text "{}" then Some (JDict [])
  else if String.eqb text query_intent_text then
    Some (JDict [("intent", JStr "QUERY"); ("confidence", JFloat (9 # 10)%Q)])
  else if String.eqb text vague_assignment_text then
    Some (JDict [("title", JStr "Essay"); ("due_date", JStr "next Friday")])
  else None.



(** A backend that only ever answers in prose. *)
Definition prose_backend : backend :=
  fun _ => Ok "I am sorry, I cannot help with that.".

(** A backend that classifies the email as a query and answers every
    later call in prose. *)
Definition query_then_prose_backend : backend :=
  fun k => match k with
           | O => Ok query_intent_text
           | _ => Ok "I am sorry, I cannot help with that."
           end.

(** A backend that answers with the empty JSON object. *)
Definition empty_object_backend : backend := fun _ => Ok "{}".

(** ** The pipeline *)

Import Client Processor.

(** The pipeline's library functions, fixed for the examples: dates are
    not parsed (every text is rejected) and nothing is rendered. *)
Definition sample_world : world Z :=
  {| calls := 0; db := {| classes := []; assignments := [] |} |}.

Definition sample_process_note (p : parsed_email) (w : world Z)
  : result json * world Z :=
  (Ok (JDict [("success", JBool true); ("message", JStr "Noted.")]), w).

Definition sample_process_email (c : ai_client) (p : parsed_email)
    (w : world Z) : result json * world Z :=
  process_email sample_json_loads Z (fun _ => None)
                (fun _ => EmptyString) (fun _ => EmptyString)
                (fun _ => EmptyString) "2024-10-01T09:00:00"
                sample_process_note
                (fun _ _ => EmptyString) (fun _ _ => Ok EmptyString)
                (fun _ => EmptyString) c p w.

Definition sample_process_assignment (c : ai_client) (p : parsed_email)
    (w : world Z) : result json * world Z :=
  process_assignment sample_json_loads Z (fun _ => None)
                     (fun _ => EmptyString) (fun _ => EmptyString)
                     (fun _ => EmptyString) "2024-10-01T09:00:00" c p w.

(** A backend that answers every call with the vague assignment. *)
Definition vague_assignment_backend : backend :=
  fun _ => Ok vague_assignment_text.

(** A rendering of the upcoming assignments that shows the window. *)
Definition window_text (d : database Z) (days : Z) : string :=
  if (days =? 1)%Z then "within 1 day"
  else if (days =? 7)%Z then "within 7 days"
  else if (days =? 14)%Z then "within 14 days"
  else if (days =? 30)%Z then "within 30 days"
  else "other".

(** A query analysis asking for the assignments of this week. *)
Definition this_week_analysis : json :=
  JDict [("query_type", JStr "assignments_due");
         ("time_filter", JStr "this_week");
         ("class_filter", JNull);
         ("search_terms", JList [])].

(** The two clients of the examples: a hosted and a local provider. *)
Definition hosted_client (llm : backend) : ai_client :=
  {| client_provider := Claude; client_llm := llm |}.

Definition local_client (llm : backend) : ai_client :=
  {| client_provider := Local; client_llm := llm |}.

(** An email asking what is due. *)
Definition due_question : parsed_email :=
  {| email_id := "17"; subject := "Question";
     body := "What is due this week?" |}.

(** The result the specification gives for a failed classification. *)
Definition specified_classification_fallback : json :=
  JDict [("intent", JStr "GENERAL");
         ("confidence", JFloat (1 # 2)%Q);
         ("reasoning", JStr "classification failed")].

End Samples.

(* ================================================================== *)
(** * Derived notions for the poller and the queue *)
(* ================================================================== *)

Module PollerAux.

Import Poller.
Local Open Scope string_scope.

(** The fetch of a message answers with status OK. *)
Definition fetch_ok (s : imap_session) (eid : email_id) : bool :=
  match imap_fetch s eid with
  | Ok (status, _) => status_ok status
  | Raise _ => false
  end.

(** A mailbox whose second message cannot be fetched. *)
Definition partial_session : imap_session :=
  {| imap_select := Ok tt;
     imap_search := Ok ("OK", ["1"; "2"; "3"]);
     imap_fetch := fun eid =>
       if String.eqb eid "2" then Ok ("NO", Raise IndexError)
       else Ok ("OK", Ok {| msg_subject := Ok "hello" |}) |}.

(** An idempotency check that knows message 2. *)
Definition knows_2 : processed_check :=
  fun eid => Ok (String.eqb eid "2").

(** An idempotency check whose store fails on message 2. *)
Definition fails_on_2 : processed_check :=
  fun eid => if String.eqb eid "2" then Raise SqliteError else Ok false.

(** A handler that always returns. *)
Definition quiet_handler : handler := fun _ _ => Ok tt.

End PollerAux.

Module QueueAux.

Import Queue.

(** The item a scheduling step of the worker takes from the queue, if
    it takes one: the item in hand after the step, the hand having been
    empty before. *)
Definition taken_by_step (q : processing_queue) : list queue_item :=
  match in_flight q, in_flight (worker_step q) with
  | None, Some it => [it]
  | _, _ => []
  end.

(** The items the worker takes during a schedule, in order. *)
Fixpoint taken (q : processing_queue) (evs : list event) : list queue_item :=
  match evs with
  | [] => []
  | Submit it :: rest => taken (apply_event q (Submit it)) rest
  | WorkerStep :: rest => taken_by_step q ++ taken (worker_step q) rest
  end.

(** The items handed to [submit] during a schedule, in order. *)
Fixpoint submitted_items (evs : list event) : list queue_item :=
  match evs with
  | [] => []
  | Submit it :: rest => it :: submitted_items rest
  | WorkerStep :: rest => submitted_items rest
  end.

(** The callback of an item returns. *)
Definition returns (it : queue_item) : bool :=
  match item_callback it (item_email_data it) with
  | Ok _ => true
  | Raise _ => false
  end.

(** How many of the items return, and how many raise. *)
Definition count_returning (l : list queue_item) : Z :=
  Z.of_nat (List.length (filter returns l)).

Definition count_raising (l : list queue_item) : Z :=
  Z.of_nat (List.length (filter (fun it => negb (returns it)) l)).

(** The counters agree with the items taken so far, the one in hand not
    being counted yet. *)
Definition counted (q : processing_queue) (tk : list queue_item) : Prop :=
  count_returning tk
  = total_processed q
    + match in_flight q with
      | Some it => if returns it then 1 else 0
      | None => 0
      end
  /\ count_raising tk
     = total_errors q
       + match in_flight q with
         | Some it => if returns it then 0 else 1
         | None => 0
         end.

End QueueAux.

Module StrAux.

Import Str.
Local Open Scope string_scope.

(** [c in s] for a single character. *)
Fixpoint has_char (c : ascii) (s : string) : bool :=
  match s with
  | EmptyString => false
  | String d t => (Ascii.eqb c d || has_char c t)%bool
  end.

(** The characters the cleaning of a reply looks for. *)
Definition open_brace : ascii := "{"%char.
Definition close_brace : ascii := "}"%char.
Definition backtick : ascii := "`"%char.

End StrAux.

Module GeneratorAux.

Local Open Scope string_scope.

(** The body of a fenced reply: an object between two line breaks. *)
Definition fenced_body : string :=
  "
{}
".

Import Str Json Samples.






End GeneratorAux.

Module PipelineAux.

Import Str Json Client Processor Samples.
Local Open Scope string_scope.

(** Three more replies that are valid JSON: a classification with the
    intent in lower case, an assignment with an ISO due date, and the
    same without a title. *)
Definition lowercase_intent_text : string :=
  "{" ++ dq ++ "intent" ++ dq ++ ": " ++ dq ++ "assignment" ++ dq ++ ", "
  ++ dq ++ "confidence" ++ dq ++ ": 1}".

Definition dated_assignment_text : string :=
  "{" ++ dq ++ "title" ++ dq ++ ": " ++ dq ++ "Essay" ++ dq ++ ", "
  ++ dq ++ "due_date" ++ dq ++ ": " ++ dq ++ "2024-10-25T23:59:00" ++ dq
  ++ "}".

Definition untitled_assignment_text : string :=
  "{" ++ dq ++ "class_name" ++ dq ++ ": " ++ dq ++ "Data Mining" ++ dq ++ ", "
  ++ dq ++ "due_date" ++ dq ++ ": " ++ dq ++ "2024-10-25T23:59:00" ++ dq
  ++ "}".

(** A stand-in for [json.loads] that agrees with it on these three
    replies and rejects every other text used with it. *)
Definition more_json_loads (text : string) : option json :=
  if String.eqb text lowercase_intent_text then
    Some (JDict [("intent", JStr "assignment"); ("confidence", JInt 1)])
  else if String.eqb text dated_assignment_text then
    Some (JDict [("title", JStr "Essay");
                 ("due_date", JStr "2024-10-25T23:59:00")])
  else if String.eqb text untitled_assignment_text then
    Some (JDict [("class_name", JStr "Data Mining");
                 ("due_date", JStr "2024-10-25T23:59:00")])
  else None.

(** A stand-in for [datetime.fromisoformat] that knows one instant,
    a date being kept as its digits. *)
Definition one_fromisoformat (s : string) : option Z :=
  if String.eqb s "2024-10-25T23:59:00" then Some 20241025235900%Z else None.

Definition untitled_backend : backend := fun _ => Ok untitled_assignment_text.

(** A backend that is unreachable. *)
Definition dead_backend : backend := fun _ => Raise ConnectionError.


Definition more_process_assignment (c : ai_client) (p : parsed_email)
    (w : world Z) : result json * world Z :=
  process_assignment more_json_loads Z one_fromisoformat
                     (fun _ => EmptyString) (fun _ => EmptyString)
                     (fun _ => EmptyString) "2024-10-01T09:00:00" c p w.

Definition more_process_query (c : ai_client) (p : parsed_email)
    (w : world Z) : result json * world Z :=
  process_query more_json_loads Z
                (fun _ _ => EmptyString) (fun _ _ => Ok EmptyString)
                (fun _ => EmptyString) c p w.

(** A store that knows one class. *)
Definition one_class_db : database Z :=
  {| classes := [(1%Z, "Data Mining")]; assignments := [] |}.

End PipelineAux.

(* ================================================================== *)
(** * main.py and the processed-emails table *)
(* ================================================================== *)

Module App.

Import Str Json Processor.
Local Open Scope string_scope.

(** The rows of the [processed_emails] table, oldest first: the email
    id (UNIQUE) and the subject. *)
Definition processed_emails : Type := list (string * string).

(** [ProcessedEmails.is_processed] *)
Fixpoint is_processed (t : processed_emails) (email_id : string) : bool :=
  match t with
  | [] => false
  | (eid, _) :: rest => (String.eqb eid email_id || is_processed rest email_id)%bool
  end.

(** [ProcessedEmails.create]: the id of the new row, or [None] when the
    insert violates the UNIQUE constraint ([sqlite3.IntegrityError]). *)
Definition create (t : processed_emails) (email_id subject : string)
  : option Z * processed_emails :=
  if is_processed t email_id then (None, t)
  else (Some (Z.of_nat (List.length t) + 1)%Z, (t ++ [(email_id, subject)])%list).

(** [UniHelper.is_email_processed], as the idempotency check of a poll. *)
Definition is_email_processed (t : processed_emails) : Poller.processed_check :=
  fun email_id => Ok (is_processed t email_id).


(** What the callback puts on the queue. *)
Record email_data : Type := {
  data_email_id : string;
  data_parsed_email : parsed_email;
  data_from_address : string
}.

(** A reply handed to [EmailSender.send_confirmation], which swallows
    its own errors. *)
Record sent_email : Type := {
  to_address : string;
  sent_subject : string;
  sent_body : json
}.

(** [send_confirmation]: the subject line of the reply. *)
Definition reply_subject (original_subject : string) : string :=
  if String.eqb original_subject EmptyString then "Jarvis Response"
  else "Re: " ++ original_subject.

Section Worker.

(** The processor behind [self.ai_processor.process_email], with the
    state it threads. *)
Variable world : Type.
Variable process_email : parsed_email -> world -> result json * world.

(** What [_process_email_worker] acts on: the processor's state, the
    replies sent and the processed-emails table. *)
Record app_state : Type := {
  app_world : world;
  outbox : list sent_email;
  processed : processed_emails
}.

Definition send_confirmation (d : email_data) (message : json)
    (w : world) (st : app_state) : app_state :=
  {| app_world := w;
     outbox := (outbox st
                ++ [{| to_address := data_from_address d;
                       sent_subject :=
                         reply_subject (subject (data_parsed_email d));
                       sent_body := message |}])%list;
     processed := processed st |}.

Definition mark_processed (d : email_data) (st : app_state) : app_state :=
  {| app_world := app_world st;
     outbox := outbox st;
     processed := snd (create (processed st) (data_email_id d)
                              (subject (data_parsed_email d))) |}.

Definition with_world (w : world) (st : app_state) : app_state :=
  {| app_world := w; outbox := outbox st; processed := processed st |}.

(** The [except Exception] clause of [_process_email_worker]. *)
Definition swallow (e : exn_class) (st : app_state) : result unit * app_state :=
  if isinstance e Exception then (Ok tt, st) else (Raise e, st).

(** [_process_email_worker] *)
Definition _process_email_worker (d : email_data) (st : app_state)
  : result unit * app_state :=
  match process_email (data_parsed_email d) (app_world st) with
  | (Raise e, w) => swallow e (with_world w st)
  | (Ok result, w) =>
      match get result "success" with
      | Raise e => swallow e (with_world w st)
      | Ok success =>
          if truthy success then
            match item result "message" with
            | Raise e => swallow e (with_world w st)
            | Ok message =>
                (Ok tt, mark_processed d (send_confirmation d message w st))
            end
          else
            match get_default result "message" (JStr "Processing failed") with
            | Raise e => swallow e (with_world w st)
            | Ok message => (Ok tt, send_confirmation d message w st)
            end
      end
  end.

(** The queue entry the callback submits for a message: the queue sees
    what the worker returns in the state it runs in. *)
Definition worker_item (d : email_data) (st : app_state) : Queue.queue_item :=
  {| Queue.item_email_data := {| Queue.subject := "No subject" |};
     Queue.item_callback := fun _ => fst (_process_email_worker d st) |}.

End Worker.

Arguments app_world {world} a.
Arguments outbox {world} a.
Arguments processed {world} a.

(** A From header with a display name. *)
Definition named_sender : string := "Fahad <fahad@example.com>".

End App.

Module AppAux.

Import Py Str Json Client Processor App Samples.
Local Open Scope string_scope.

(** The application over the sample pipeline: a hosted provider whose
    backend only answers in prose. *)
Definition prose_pipeline (p : parsed_email) (w : world Z)
  : result json * world Z :=
  sample_process_email (hosted_client prose_backend) p w.

(** The pipeline whose classification is answered by the empty object:
    [process_email] raises [KeyError]. *)
Definition raising_pipeline (p : parsed_email) (w : world Z)
  : result json * world Z :=
  sample_process_email (hosted_client empty_object_backend) p w.

Definition question_data : email_data :=
  {| data_email_id := "17"; data_parsed_email := due_question;
     data_from_address := "fahad@example.com" |}.

Definition fresh_app : app_state (world Z) :=
  {| app_world := sample_world; outbox := []; processed := [] |}.

(** Two messages submitted and worked off through the raising
    pipeline. *)
Definition app_schedule : list Queue.event :=
  [Queue.WorkerStep;
   Queue.Submit (worker_item (world Z) raising_pipeline question_data
                             fresh_app);
   Queue.WorkerStep;
   Queue.Submit (worker_item (world Z) raising_pipeline question_data
                             fresh_app);
   Queue.WorkerStep; Queue.WorkerStep; Queue.WorkerStep; Queue.WorkerStep].

(** An item whose callback raises nothing the queue would count. *)
Definition uncounted (it : Queue.queue_item) : Prop :=
  forall e, Queue.item_callback it (Queue.item_email_data it) = Raise e ->
            isinstance e Exception = false.

End AppAux.

(* ================================================================== *)
(** * Properties of the poller *)
(* ================================================================== *)

Module PollerProps.

Import Poller Samples.

Lemma initial_well_formed : well_formed initial_state.
Proof. unfold well_formed; simpl; repeat split; lia. Qed.

Lemma sleep_nonneg (d : Z) : 0 <= d -> time_sleep d = Ok tt.
Proof.
  intros H. unfold time_sleep.
  destruct (Z.ltb_spec d 0); [lia | reflexivity].
Qed.

Lemma sleep_neg (d : Z) : d < 0 -> time_sleep d = Raise ValueError.
Proof.
  intros H. unfold time_sleep.
  destruct (Z.ltb_spec d 0); [reflexivity | lia].
Qed.

Ltac break_ge :=
  match goal with
  | |- context [?a >=? ?b] => destruct (Z.geb_spec a b)
  end.

(** The failed-reconnect step: the delay doubles under the cap and the
    loop stops exactly when the count reaches five. *)
Lemma backoff_and_check_spec (st : loop_state) :
  well_formed st ->
  let d := Z.min (retry_delay st * 2) 60 in
  (consecutive_failures st >= 5 /\
   backoff_and_check st = Break (set_running false (set_delay d st)))
  \/ (consecutive_failures st < 5 /\
      backoff_and_check st = Next (set_delay d st)).
Proof.
  intros (Hr & Hm & Hc & Hd & H0) d. unfold backoff_and_check, d.
  rewrite Hm. simpl. break_ge; [left | right]; split; auto; lia.
Qed.

Ltac wf_done :=
  unfold well_formed; simpl; repeat split; try lia; try assumption.

(** One iteration from a well-formed state keeps the state well formed;
    it stops the loop only with [is_running] cleared, and raises only
    what the poll raised past [except Exception]. *)
Lemma loop_body_well_formed (interval : Z) (st : loop_state) (c : cycle) :
  well_formed st ->
  match loop_body interval st c with
  | Next st' => well_formed st'
  | Break st' => is_running st' = false
  | Throw e _ => cyc_poll c = Raise e /\ isinstance e Exception = false
  end.
Proof.
  intros (Hr & Hm & Hc & Hd & H0).
  unfold loop_body, try_block.
  destruct (cyc_poll c) as [[|] | e] eqn:Hp.
  - (* the poll succeeded *)
    simpl.
    destruct (Z.gtb_spec (consecutive_failures st) 0) as [Hpos | Hzero];
      destruct (Z.ltb_spec interval 0) as [Hneg | Hok];
      rewrite ?(sleep_neg _ Hneg), ?(sleep_nonneg _ Hok); simpl;
      try solve [wf_done].
    + unfold except_exception, backoff_and_check. simpl. rewrite Hm.
      destruct (cyc_connect c); simpl; wf_done.
    + assert (Hz : consecutive_failures st = 0) by lia.
      specialize (H0 Hz).
      unfold except_exception, backoff_and_check. simpl.
      rewrite Hm, H0, Hz.
      destruct (cyc_connect c); simpl; wf_done.
  - (* the poll reported a connection error *)
    simpl. rewrite sleep_nonneg by lia.
    destruct (cyc_connect c); simpl; [wf_done |].
    unfold backoff_and_check. simpl. rewrite Hm.
    break_ge; simpl; [reflexivity | wf_done].
  - (* the poll raised *)
    simpl.
    destruct (isinstance e KeyboardInterrupt) eqn:Hk; [reflexivity |].
    destruct (isinstance e Exception) eqn:He; [| split; [reflexivity | exact He]].
    unfold except_exception. simpl. rewrite sleep_nonneg by lia.
    destruct (cyc_connect c); simpl; [wf_done |].
    unfold backoff_and_check. simpl. rewrite Hm.
    break_ge; simpl; [reflexivity | wf_done].
Qed.

Lemma polling_loop_well_formed (interval : Z) (cycles : list cycle) :
  forall st0 st, well_formed st0 ->
    polling_loop interval st0 cycles = StillPolling st -> well_formed st.
Proof.
  induction cycles as [| c rest IH]; intros st0 st Hwf H; simpl in H.
  - destruct (is_running st0); simpl in H; [| discriminate].
    injection H as <-. assumption.
  - destruct (is_running st0); simpl in H; [| discriminate].
    pose proof (loop_body_well_formed interval st0 c Hwf) as Hb.
    destruct (loop_body interval st0 c); try discriminate.
    eapply IH; eauto.
Qed.


Lemma polling_loop_app (interval : Z) (cs1 cs2 : list cycle) :
  forall st,
    polling_loop interval st (cs1 ++ cs2) =
    match polling_loop interval st cs1 with
    | StillPolling st' => polling_loop interval st' cs2
    | r => r
    end.
Proof.
  induction cs1 as [| c rest IH]; intros st; simpl.
  - destruct (is_running st) eqn:Hr; simpl; [reflexivity |].
    destruct cs2; simpl; rewrite Hr; reflexivity.
  - destruct (is_running st); simpl; [| reflexivity].
    destruct (loop_body interval st c); auto.
Qed.

(** A cycle whose poll and reconnect both fail: the failure is counted,
    the wait is the current delay, the delay doubles under the cap, and
    the loop stops exactly when the count reaches five. *)
Lemma failed_cycle_step (interval : Z) (st : loop_state) :
  well_formed st ->
  let st' :=
    {| is_running := is_running st; max_retry_delay := max_retry_delay st;
       poll_count := poll_count st + 1;
       consecutive_failures := consecutive_failures st + 1;
       retry_delay := Z.min (retry_delay st * 2) 60;
       actions := actions st ++ [ActPoll] ++ [ActDisconnect]
                  ++ [ActSleep (retry_delay st)] ++ [ActConnect false] |} in
  (consecutive_failures st + 1 >= 5 /\
   loop_body interval st failed_cycle = Break (set_running false st'))
  \/ (consecutive_failures st + 1 < 5 /\
      loop_body interval st failed_cycle = Next st').
Proof.
  intros (Hr & Hm & Hc & Hd & H0) st'. unfold st'.
  unfold loop_body, try_block, failed_cycle. simpl.
  rewrite sleep_nonneg by lia. simpl.
  unfold backoff_and_check. simpl. rewrite Hm.
  unfold set_running, set_delay, act, set_failures, set_poll_count. simpl.
  repeat rewrite <- app_assoc. simpl. rewrite Hm.
  break_ge; [left | right]; (split; [lia | reflexivity]).
Qed.




(** C1. The backoff invariant of the specification holds on the paths of
    [backoff_policy], but not on the loop's catch-all handler: a reconnect
    made there that succeeds leaves the consecutive-failure counter as it
    is.  With a negative polling
    interval the sleep after a successful poll raises, the handler counts
    a failure and reconnects, and after the successful reconnect the
    counter is 1, where the reconnect that follows a failed poll (second
    run below) resets it to 0. *)
Theorem handler_reconnect_keeps_failure_count :
  polling_loop (-1) initial_state
    [{| cyc_poll := Ok true; cyc_connect := true |}]
  = StillPolling
      {| is_running := true; max_retry_delay := 60; poll_count := 1;
         consecutive_failures := 1; retry_delay := 5;
         actions := [ActPoll; ActDisconnect; ActSleep 5; ActConnect true] |}
  /\ polling_loop 60 initial_state
       [{| cyc_poll := Ok false; cyc_connect := true |}]
     = StillPolling
         {| is_running := true; max_retry_delay := 60; poll_count := 1;
            consecutive_failures := 0; retry_delay := 5;
            actions := [ActPoll; ActDisconnect; ActSleep 5; ActConnect true] |}.
Proof. split; reflexivity. Qed.

(** [n] failed cycles that bring the count to five stop the loop at the
    last of them, and not before. *)
Lemma failed_cycles_stop (interval : Z) (rest : list cycle) (n : nat) :
  forall st,
    well_formed st -> (0 < n)%nat ->
    consecutive_failures st + Z.of_nat n = 5 ->
    exists st',
      polling_loop interval st (repeat failed_cycle n ++ rest) = Returned st'
      /\ is_running st' = false
      /\ consecutive_failures st' = 5
      /\ poll_count st' = poll_count st + Z.of_nat n.
Proof.
  induction n as [| m IH]; intros st Hwf Hn Hsum; [lia |].
  pose proof Hwf as (Hr & _).
  pose proof (loop_body_well_formed interval st failed_cycle Hwf) as Hnext.
  simpl. rewrite Hr. simpl.
  destruct (failed_cycle_step interval st Hwf) as [[Hge Hb] | [Hlt Hb]];
    rewrite Hb in *.
  - eexists. split; [reflexivity |]. simpl. repeat split; lia.
  - destruct (IH _ Hnext) as (st' & Hrun & Hstop & Hcf & Hpc);
      [simpl in *; lia | simpl in *; lia |].
    exists st'. rewrite Hrun. simpl in Hpc. repeat split; auto; lia.
Qed.

(** C4. After five consecutive polls that fail and whose reconnects fail,
    the loop is in its terminal state: [is_running] is false, the loop has
    exited at the fifth failure and [start_polling] has returned (it did
    not raise).  This holds at the start of a run, where the five waits
    are 5, 10, 20, 40 and 60 seconds, and after any run that has brought
    the failure count back to zero. *)
Theorem five_failed_reconnects_stop_the_loop :
  forall (interval : Z) (rest : list cycle),
    start_polling interval (repeat failed_cycle 5 ++ rest) =
      Returned
        {| is_running := false; max_retry_delay := 60; poll_count := 5;
           consecutive_failures := 5; retry_delay := 60;
           actions :=
             [ActPoll; ActDisconnect; ActSleep 5; ActConnect false;
              ActPoll; ActDisconnect; ActSleep 10; ActConnect false;
              ActPoll; ActDisconnect; ActSleep 20; ActConnect false;
              ActPoll; ActDisconnect; ActSleep 40; ActConnect false;
              ActPoll; ActDisconnect; ActSleep 60; ActConnect false;
              ActDisconnect] |}
    /\ forall (before : list cycle) (st : loop_state),
         polling_loop interval initial_state before = StillPolling st ->
         consecutive_failures st = 0 ->
         exists st',
           start_polling interval (before ++ repeat failed_cycle 5 ++ rest)
             = Returned (act ActDisconnect st')
           /\ is_running st' = false
           /\ consecutive_failures st' = 5
           /\ poll_count st' = poll_count st + 5.
Proof.
  intros interval rest. split; [reflexivity |].
  intros before st Hrun Hzero.
  assert (Hwf : well_formed st).
  { eapply polling_loop_well_formed; [apply initial_well_formed | exact Hrun]. }
  destruct (failed_cycles_stop interval rest 5 st Hwf) as (st' & H1 & H2 & H3 & H4);
    [lia | simpl; lia |].
  exists st'. unfold start_polling.
  rewrite polling_loop_app, Hrun, H1. simpl in H4. auto.
Qed.

(** The theorem at a run that polls successfully twice (every 60
    seconds) and then loses the connection for good. *)
Lemma five_failed_reconnects_witness :
  exists st',
    start_polling 60
      ([ {| cyc_poll := Ok true; cyc_connect := true |};
         {| cyc_poll := Ok true; cyc_connect := true |} ]
       ++ repeat failed_cycle 5 ++ [failed_cycle])
      = Returned (act ActDisconnect st')
    /\ is_running st' = false
    /\ consecutive_failures st' = 5
    /\ poll_count st' = 2 + 5.
Proof.
  exact (proj2 (five_failed_reconnects_stop_the_loop 60 [failed_cycle])
           [ {| cyc_poll := Ok true; cyc_connect := true |};
             {| cyc_poll := Ok true; cyc_connect := true |} ]
           _ eq_refl eq_refl).
Defined.

(** ** One poll *)

Lemma handled_ids_app (l1 l2 : list poll_event) :
  handled_ids (l1 ++ l2) = handled_ids l1 ++ handled_ids l2.
Proof.
  induction l1 as [| ev rest IH]; simpl; [reflexivity |].
  destruct ev; simpl; rewrite IH; reflexivity.
Qed.

(** The batch loop under handlers that raise none but [Exception]s: it
    runs to the end, and the handler has seen every message the
    idempotency check let through. *)
Lemma poll_each_handles_all (callback : handler)
    (chk : option processed_check) (emails : list (email_id * email_message)) :
  (forall eid m e, callback eid m = Raise e -> isinstance e Exception = true) ->
  (forall eid m, In (eid, m) emails ->
     (forall f, chk = Some f -> exists b, f eid = Ok b)
     /\ exists s, msg_subject m = Ok s) ->
  forall log, exists log',
    poll_each callback chk emails log = (Ok tt, log')
    /\ handled_ids log' = handled_ids log ++ to_handle chk emails.
Proof.
  intros Hcb. induction emails as [| [eid m] rest IH]; intros Hin log.
  - exists log. simpl. rewrite app_nil_r. auto.
  - destruct (Hin eid m (or_introl eq_refl)) as (Hchk & s & Hs).
    assert (Hrest : forall eid' m', In (eid', m') rest ->
              (forall f, chk = Some f -> exists b, f eid' = Ok b)
              /\ exists s', msg_subject m' = Ok s').
    { intros eid' m' H'. apply Hin. right. exact H'. }
    specialize (IH Hrest).
    unfold to_handle in *. simpl. unfold already_processed at 1.
    destruct chk as [f |].
    + destruct (Hchk f eq_refl) as [b Hb]. rewrite Hb. destruct b; simpl.
      * destruct (IH (log ++ [Skipped eid])) as (log' & H1 & H2).
        exists log'. split; [exact H1 |].
        rewrite H2, handled_ids_app. simpl. rewrite app_nil_r. reflexivity.
      * rewrite Hs.
        destruct (callback eid m) as [u | e] eqn:Hc.
        -- destruct (IH (log ++ [Handled eid])) as (log' & H1 & H2).
           exists log'. split; [exact H1 |].
           rewrite H2, handled_ids_app. simpl. rewrite <- app_assoc. reflexivity.
        -- rewrite (Hcb _ _ _ Hc).
           destruct (IH (log ++ [Handled eid; HandlerErrorLogged eid e]))
             as (log' & H1 & H2).
           exists log'. split; [exact H1 |].
           rewrite H2, handled_ids_app. simpl. rewrite <- app_assoc. reflexivity.
    + simpl. rewrite Hs.
      destruct (callback eid m) as [u | e] eqn:Hc.
      * destruct (IH (log ++ [Handled eid])) as (log' & H1 & H2).
        exists log'. split; [exact H1 |].
        rewrite H2, handled_ids_app. simpl. rewrite <- app_assoc. reflexivity.
      * rewrite (Hcb _ _ _ Hc).
        destruct (IH (log ++ [Handled eid; HandlerErrorLogged eid e]))
          as (log' & H1 & H2).
        exists log'. split; [exact H1 |].
        rewrite H2, handled_ids_app. simpl. rewrite <- app_assoc. reflexivity.
Qed.



(** ** Fetch errors *)

(** The four classes of the first [except] clause come down to two:
    [ssl.SSLError] and [ConnectionError] derive from [OSError]. *)
Lemma is_connection_error_classes (e : exn_class) :
  is_connection_error e = (isinstance e OSError || isinstance e IMAP4_abort)%bool.
Proof. destruct e; reflexivity. Qed.

Lemma connection_error_is_exception (e : exn_class) :
  is_connection_error e = true -> isinstance e Exception = true.
Proof. destruct e; simpl; intros H; try reflexivity; discriminate H. Qed.



End PollerProps.

(* ================================================================== *)
(** * Properties of the processing queue *)
(* ================================================================== *)

Module QueueProps.

Import Queue Samples.

Lemma start_accounted : accounted (start new_queue) 0.
Proof.
  unfold accounted, pending; simpl.
  repeat split; auto. intros it H; discriminate H.
Qed.

Lemma submit_accounted (q : processing_queue) (n : Z) (it : queue_item) :
  accounted q n -> callback_ok it -> accounted (snd (submit it q)) (1 + n).
Proof.
  intros (Hr & Ha & Hsum & Hq & Hf) Hit.
  unfold submit. rewrite Hr.
  unfold accounted, pending in *.
  cbn [negb snd queue running worker_alive in_flight total_processed
       total_errors].
  repeat split; auto.
  - rewrite length_app, Nat2Z.inj_add. simpl List.length. lia.
  - apply Forall_app. split; [assumption | constructor; auto].
Qed.

Lemma worker_step_accounted (q : processing_queue) (n : Z) :
  accounted q n -> accounted (worker_step q) n.
Proof.
  intros (Hr & Ha & Hsum & Hq & Hf).
  unfold worker_step. rewrite Ha. cbn [negb].
  destruct (in_flight q) as [it |] eqn:Hin.
  - pose proof (Hf it eq_refl) as Hok.
    destruct (item_callback it (item_email_data it)) as [u | e] eqn:Hc.
    + unfold accounted, pending in *; simpl. rewrite Hin in Hsum.
      repeat split; auto; try lia; intros it' H; discriminate H.
    + rewrite (Hok e Hc).
      unfold accounted, pending in *; simpl. rewrite Hin in Hsum.
      repeat split; auto; try lia; intros it' H; discriminate H.
  - rewrite Hr. cbn [negb].
    unfold pending in Hsum. rewrite Hin in Hsum.
    destruct (waiting q).
    + destruct (queue q) as [| it rest] eqn:Hqueue.
      * unfold accounted, pending; simpl. simpl in Hsum.
        repeat split; auto; try lia; try (intros it' H; discriminate H).
      * unfold accounted, pending; simpl.
        simpl List.length in Hsum. rewrite Nat2Z.inj_succ in Hsum.
        inversion Hq as [| it0 rest0 Hit Hrest Heq].
        repeat split; auto; try lia.
        intros it' Hsome. injection Hsome as <-. assumption.
    + unfold accounted, pending; simpl.
      repeat split; auto; try lia; try (intros it' H; discriminate H).
Qed.

Lemma run_accounted (evs : list event) :
  forall q n, accounted q n -> callbacks_ok evs ->
              accounted (run q evs) (n + submitted evs).
Proof.
  induction evs as [| ev rest IH]; intros q n Hacc Hok.
  - simpl. replace (n + 0) with n by lia. assumption.
  - destruct ev as [it |];
      cbn [run fold_left apply_event submitted callbacks_ok] in *.
    + fold (run (snd (submit it q)) rest).
      destruct Hok as [Hit Hrest].
      replace (n + (1 + submitted rest)) with ((1 + n) + submitted rest) by lia.
      apply IH; [apply submit_accounted; assumption | assumption].
    + fold (run (worker_step q) rest).
      apply IH; [apply worker_step_accounted; assumption | assumption].
Qed.

(** What the worker does once the flag is cleared, when it is given the
    time: from the loop head it exits; with an item in hand it finishes
    and counts that item and exits; from [queue.get] it takes the head
    of the queue, if there is one, finishes and counts it, and exits. *)
Lemma stop_accounted (q : processing_queue) (n : Z) :
  accounted q n ->
  let q' := stop true q in
  running q' = false /\ worker_alive q' = false /\ in_flight q' = None
  /\ queue q' = skipn (still_takes q) (queue q)
  /\ total_processed q' + total_errors q' + Z.of_nat (List.length (queue q')) = n.
Proof.
  destruct q as [items r a w hand tp te].
  unfold accounted, pending, still_takes. cbn [queue running worker_alive
    waiting in_flight total_processed total_errors].
  intros (-> & -> & Hsum & Hq & Hf).
  destruct hand as [it |].
  - pose proof (Hf it eq_refl) as Hok.
    unfold stop, worker_step. cbn.
    destruct (item_callback it (item_email_data it)) as [u | e] eqn:Hc.
    + cbn. repeat split; lia.
    + rewrite (Hok e Hc). cbn. repeat split; lia.
  - destruct w.
    + destruct items as [| it rest].
      * unfold stop, worker_step. cbn. cbn in Hsum. repeat split; lia.
      * inversion Hq as [| it0 rest0 Hit Hrest Heq].
        simpl List.length in Hsum. rewrite Nat2Z.inj_succ in Hsum.
        unfold stop, worker_step. cbn.
        destruct (item_callback it (item_email_data it)) as [u | e] eqn:Hc.
        -- cbn. repeat split; lia.
        -- rewrite (Hit e Hc). cbn. repeat split; lia.
    + unfold stop, worker_step. cbn. repeat split; lia.
Qed.

(** C3, as the code has it.  For every schedule of submissions and worker
    steps on a started queue, after [stop] with a timeout that covers
    what the worker still does, total_processed + total_errors +
    queue_size is the number N of submitted items: each is counted
    exactly once as processed or errored, or is still in the queue.
    Once the flag is cleared the worker takes at most one further item
    (the head of the queue, when it sits in [queue.get] with its hands
    empty) and none otherwise; the rest of the queue is left as it was.
    So the counters sum to N and queue_size is 0 exactly when at most
    that many items were still queued when [stop] was called. *)
Theorem stop_counts_every_item_once_or_leaves_it_queued :
  forall evs : list event,
    callbacks_ok evs ->
    let before := run (start new_queue) evs in
    let after := get_status (stop true before) in
    status_total_processed after + status_total_errors after + queue_size after
      = submitted evs
    /\ queue (stop true before) = skipn (still_takes before) (queue before)
    /\ (still_takes before <= 1)%nat
    /\ status_running after = false
    /\ worker_alive (stop true before) = false
    /\ in_flight (stop true before) = None
    /\ ((List.length (queue before) <= still_takes before)%nat <->
        status_total_processed after + status_total_errors after
          = submitted evs
        /\ queue_size after = 0).
Proof.
  intros evs Hok before after.
  pose proof (run_accounted evs _ _ start_accounted Hok) as Hacc.
  simpl in Hacc. fold before in Hacc.
  destruct (stop_accounted before _ Hacc) as (H1 & H2 & H3 & H4 & H5).
  unfold after, get_status.
  cbn [status_total_processed status_total_errors queue_size status_running].
  split; [exact H5 |]. split; [exact H4 |].
  split; [unfold still_takes;
          destruct (in_flight before), (waiting before); lia |].
  split; [exact H1 |]. split; [exact H2 |]. split; [exact H3 |].
  rewrite H4 in *. rewrite length_skipn in *. split.
  - intros Hle. lia.
  - intros [_ Hzero]. lia.
Qed.

(** The theorem at three submissions that the worker has taken and
    finished before the stop: two processed, one error, nothing queued. *)
Lemma stop_counts_witness :
  let before := run (start new_queue) drained in
  let after := get_status (stop true before) in
  status_total_processed after + status_total_errors after + queue_size after
    = submitted drained
  /\ queue (stop true before) = skipn (still_takes before) (queue before)
  /\ (still_takes before <= 1)%nat
  /\ status_running after = false
  /\ worker_alive (stop true before) = false
  /\ in_flight (stop true before) = None
  /\ ((List.length (queue before) <= still_takes before)%nat <->
      status_total_processed after + status_total_errors after
        = submitted drained
      /\ queue_size after = 0).
Proof.
  apply (stop_counts_every_item_once_or_leaves_it_queued drained).
  simpl. unfold callback_ok. simpl.
  repeat split; intros e H; try discriminate H; injection H as <-; reflexivity.
Defined.

(** C3 in the specification's wording fails: the worker sits in
    [queue.get], three items are submitted and [stop] is called at once,
    with a timeout that covers what the worker still does.  The worker
    takes and finishes the first item and exits: one item is counted and
    two are left in the queue.  The same holds when [stop] is called
    while the worker has the first item in hand. *)
Lemma stop_leaves_items_in_the_queue :
  submitted (WorkerStep :: burst) = 3
  /\ get_status (stop true (run (start new_queue) (WorkerStep :: burst)))
     = {| queue_size := 2; status_total_processed := 1;
          status_total_errors := 0; status_running := false |}
  /\ get_status
       (stop true (run (start new_queue) (WorkerStep :: burst ++ [WorkerStep])))
     = {| queue_size := 2; status_total_processed := 1;
          status_total_errors := 0; status_running := false |}.
Proof. repeat split. Qed.

End QueueProps.

(* ================================================================== *)
(** * Facts about strings *)
(* ================================================================== *)

Module StrFacts.

Import Str StrAux.
Local Open Scope string_scope.

Lemma app_empty_r (s : string) : s ++ EmptyString = s.
Proof. induction s as [| c s IH]; simpl; [| rewrite IH]; reflexivity. Qed.

Lemma app_assoc (a b c : string) : (a ++ b) ++ c = a ++ (b ++ c).
Proof. induction a as [| x a IH]; simpl; [| rewrite IH]; reflexivity. Qed.

Lemma length_app (a b : string) :
  String.length (a ++ b) = (String.length a + String.length b)%nat.
Proof. induction a as [| x a IH]; simpl; [| rewrite IH]; reflexivity. Qed.

Lemma rev_onto_spec (s acc : string) : rev_onto s acc = rev s ++ acc.
Proof.
  unfold rev. revert acc.
  induction s as [| c s IH]; intros acc; simpl; [reflexivity |].
  rewrite (IH (String c acc)), (IH (String c EmptyString)), app_assoc.
  reflexivity.
Qed.

Lemma rev_cons (c : ascii) (s : string) :
  rev (String c s) = rev s ++ String c EmptyString.
Proof. unfold rev at 1. simpl. apply rev_onto_spec. Qed.

Lemma rev_app (a b : string) : rev (a ++ b) = rev b ++ rev a.
Proof.
  induction a as [| c a IH]; simpl.
  - rewrite app_empty_r. reflexivity.
  - rewrite !rev_cons, IH, app_assoc. reflexivity.
Qed.

Lemma rev_involutive (s : string) : rev (rev s) = s.
Proof.
  induction s as [| c s IH]; [reflexivity |].
  rewrite rev_cons, rev_app, IH. reflexivity.
Qed.

Lemma has_char_app (c : ascii) (a b : string) :
  has_char c (a ++ b) = (has_char c a || has_char c b)%bool.
Proof.
  induction a as [| d a IH]; simpl; [reflexivity |].
  rewrite IH, orb_assoc. reflexivity.
Qed.

Lemma has_char_rev (c : ascii) (s : string) :
  has_char c (rev s) = has_char c s.
Proof.
  induction s as [| d s IH]; [reflexivity |].
  rewrite rev_cons, has_char_app, IH. simpl.
  rewrite orb_false_r, orb_comm. reflexivity.
Qed.

Lemma has_char_lstrip (c : ascii) (s : string) :
  has_char c s = false -> has_char c (lstrip s) = false.
Proof.
  induction s as [| d s IH]; intros H; [reflexivity |].
  simpl. destruct (is_space d); [| exact H].
  apply IH. simpl in H. apply orb_false_iff in H. apply H.
Qed.

Lemma has_char_rstrip (c : ascii) (s : string) :
  has_char c s = false -> has_char c (rstrip s) = false.
Proof.
  intros H. unfold rstrip. rewrite has_char_rev.
  apply has_char_lstrip. rewrite has_char_rev. exact H.
Qed.

(** Stripping on the left stops at a character that is no space. *)
Lemma lstrip_app (a : string) (c : ascii) (t : string) :
  is_space c = false ->
  lstrip (a ++ String c t) = lstrip a ++ String c t.
Proof.
  intros Hc. induction a as [| d a IH]; simpl.
  - rewrite Hc. reflexivity.
  - destruct (is_space d); [exact IH | reflexivity].
Qed.

Lemma rstrip_app (a : string) (c : ascii) (t : string) :
  is_space c = false ->
  rstrip (a ++ String c t) = a ++ String c (rstrip t).
Proof.
  intros Hc. unfold rstrip.
  rewrite rev_app, rev_cons, app_assoc. simpl.
  rewrite (lstrip_app (rev t) c (rev a) Hc).
  rewrite rev_app, rev_cons, rev_involutive, app_assoc. reflexivity.
Qed.

(** A text without a backtick holds no code fence. *)
Lemma no_backtick_no_fence (s : string) :
  has_char backtick s = false -> contains "```" s = false.
Proof.
  induction s as [| c s IH]; intros H; [reflexivity |].
  cbn [has_char] in H. apply orb_false_iff in H. destruct H as [Hc Hs].
  cbn [contains]. rewrite (IH Hs), orb_false_r.
  change "```" with (String backtick (String backtick (String backtick
                                                         EmptyString))).
  cbn [String.prefix].
  destruct (Ascii.ascii_dec backtick c) as [Heq | _]; [| reflexivity].
  rewrite <- Heq, Ascii.eqb_refl in Hc. discriminate Hc.
Qed.

Lemma find_absent (c : ascii) (s : string) :
  has_char c s = false -> find c s = None /\ rfind c s = None.
Proof.
  induction s as [| d s IH]; intros H; [split; reflexivity |].
  simpl in H. apply orb_false_iff in H. destruct H as [Hc Hs].
  destruct (IH Hs) as [Hf Hr]. simpl. rewrite Hc, Hf, Hr. split; reflexivity.
Qed.

Lemma find_app (c : ascii) (a t : string) :
  has_char c a = false ->
  find c (a ++ String c t) = Some (String.length a).
Proof.
  induction a as [| d a IH]; intros H; simpl.
  - rewrite Ascii.eqb_refl. reflexivity.
  - simpl in H. apply orb_false_iff in H. destruct H as [Hc Ha].
    rewrite Hc, (IH Ha). reflexivity.
Qed.

Lemma rfind_app (c : ascii) (a t : string) :
  has_char c t = false ->
  rfind c (a ++ String c t) = Some (String.length a).
Proof.
  intros H. induction a as [| d a IH]; simpl.
  - destruct (find_absent c t H) as [_ ->]. rewrite Ascii.eqb_refl.
    reflexivity.
  - rewrite IH. reflexivity.
Qed.

Lemma substring_skip (a s : string) (m : nat) :
  String.substring (String.length a) m (a ++ s) = String.substring 0 m s.
Proof. induction a as [| c a IH]; simpl; [reflexivity | exact IH]. Qed.

Lemma substring_prefix (x b : string) :
  String.substring 0 (String.length x) (x ++ b) = x.
Proof.
  induction x as [| c x IH]; simpl.
  - destruct b; reflexivity.
  - rewrite IH. reflexivity.
Qed.

Lemma prefix_self_app (p s : string) : String.prefix p (p ++ s) = true.
Proof.
  induction p as [| c p IH]; simpl; [destruct s; reflexivity |].
  destruct (Ascii.ascii_dec c c) as [_ | Hne]; [exact IH |].
  exfalso. apply Hne. reflexivity.
Qed.

End StrFacts.

(* ================================================================== *)
(** * Properties of the retrying JSON generator *)
(* ================================================================== *)

Module GeneratorProps.

Import Str StrAux Json LocalModel Samples GeneratorAux.
Local Open Scope string_scope.

Lemma lower_app (a b : string) : lower (a ++ b) = lower a ++ lower b.
Proof. induction a as [| c a IH]; simpl; [reflexivity | rewrite IH; reflexivity]. Qed.

Lemma prefix_app (kw a b : string) :
  String.prefix kw a = true -> String.prefix kw (a ++ b) = true.
Proof.
  revert a. induction kw as [| c kw IH]; intros a H;
    [destruct (a ++ b); reflexivity |].
  destruct a as [| d a]; simpl in *; [discriminate |].
  destruct (Ascii.ascii_dec c d); [apply IH; assumption | discriminate].
Qed.

Lemma contains_app_l (kw a b : string) :
  contains kw a = true -> contains kw (a ++ b) = true.
Proof.
  induction a as [| c a IH]; intros H.
  - simpl in H. rewrite orb_false_r in H.
    destruct kw; [destruct b; reflexivity | discriminate].
  - cbn [contains] in H. apply orb_true_iff in H.
    change (String c a ++ b) with (String c (a ++ b)). cbn [contains].
    apply orb_true_iff. destruct H as [H | H].
    + left. apply (prefix_app kw (String c a) b H).
    + right. apply IH. exact H.
Qed.

Lemma contains_app_r (kw a b : string) :
  contains kw b = true -> contains kw (a ++ b) = true.
Proof.
  intros H. induction a as [| c a IH]; [exact H |].
  change (String c a ++ b) with (String c (a ++ b)). cbn [contains].
  rewrite IH. apply orb_true_r.
Qed.

(** ** A bare object passes the cleaning unchanged *)



Section Retry.

Variable json_loads : string -> option json.

Lemma generate_text (llm : backend) (calls : nat) (text : string) :
  llm calls = Ok text -> generate llm calls = (Ok (strip text), S calls).
Proof. intros H. unfold generate. rewrite H. reflexivity. Qed.

(** [n] unparseable answers use up [n] attempts. *)
Lemma loop_skips_unparseable (system_prompt user_prompt : string)
    (llm : backend) (retries : Z) (n : nat) :
  forall (remaining : nat) (attempt : Z) (calls : nat),
    unparseable_from json_loads llm calls n ->
    (attempt + Z.of_nat n <= retries)%Z ->
    generate_json_loop json_loads (n + remaining) attempt retries
                       system_prompt user_prompt llm calls
    = generate_json_loop json_loads remaining (attempt + Z.of_nat n) retries
                         system_prompt user_prompt llm (calls + n).
Proof.
  induction n as [| n IH]; intros remaining attempt calls Hbad Hle.
  - simpl. rewrite Z.add_0_r, Nat.add_0_r. reflexivity.
  - destruct (Hbad O) as (text & Hllm & Hparse); [lia |].
    rewrite Nat.add_0_r in Hllm.
    cbn [Nat.add generate_json_loop].
    rewrite (generate_text _ _ _ Hllm).
    unfold parsed_response in Hparse. rewrite Hparse.
    destruct (Z.ltb_spec attempt retries) as [_ | Hge]; [| lia].
    rewrite IH.
    + f_equal; lia.
    + intros k Hk. destruct (Hbad (S k)) as (t & H1 & H2); [lia |].
      exists t. split; [| exact H2].
      rewrite <- H1. f_equal. lia.
    + lia.
Qed.


(** Three unparseable answers exhaust the attempts. *)
Lemma generate_json_exhausted (system_prompt user_prompt : string)
    (llm : backend) (calls : nat) :
  unparseable_from json_loads llm calls 3 ->
  generate_json json_loads system_prompt user_prompt default_retries llm calls
  = (Ok (_get_fallback_structure system_prompt user_prompt), (calls + 3)%nat).
Proof.
  intros Hbad.
  unfold generate_json, default_retries.
  change (Z.to_nat (2 + 1)) with (2 + 1)%nat.
  assert (Hbad2 : unparseable_from json_loads llm calls 2).
  { intros k Hk. apply Hbad. lia. }
  rewrite (loop_skips_unparseable system_prompt user_prompt llm 2 2 1 0
             calls Hbad2 ltac:(lia)).
  destruct (Hbad 2%nat ltac:(lia)) as (text & Hllm & Hparse).
  cbn [generate_json_loop]. rewrite (generate_text _ _ _ Hllm).
  unfold parsed_response in Hparse. rewrite Hparse.
  change (0 + Z.of_nat 2 <? 2)%Z with false. cbv iota.
  f_equal. lia.
Qed.



End Retry.



End GeneratorProps.

(* ================================================================== *)
(** * Properties of the classification pipeline *)
(* ================================================================== *)

Module PipelineProps.

Import Str Json Prompts Client Processor Samples GeneratorProps.
Local Open Scope string_scope.

(** The intent prompt names its task before the subject, so the keyword
    test of the local fallback picks the intent shape whatever the email
    says. *)
Lemma intent_prompt_selects_intent_fallback (subject body : string) :
  LocalModel._get_fallback_structure JARVIS_SYSTEM_PROMPT
                                     (format_intent_prompt subject body)
  = LocalModel.intent_fallback.
Proof.
  unfold LocalModel._get_fallback_structure.
  assert (H : contains "intent"
                (lower (JARVIS_SYSTEM_PROMPT ++ " "
                        ++ format_intent_prompt subject body)) = true).
  { unfold format_intent_prompt.
    rewrite !lower_app.
    apply contains_app_r. apply contains_app_r. apply contains_app_l.
    reflexivity. }
  rewrite H. reflexivity.
Qed.

Section Pipeline.

Variable json_loads : string -> option json.
Variable datetime : Type.
Variable fromisoformat : string -> option datetime.
Variable strftime_due : datetime -> string.
Variable strftime_reminder : datetime -> string.
Variable py_str : json -> string.
Variable current_date : string.
Variable process_note :
  parsed_email -> world datetime -> result json * world datetime.
Variable upcoming_text : database datetime -> Z -> string.
Variable notes_text : database datetime -> json -> result string.
Variable classes_text : database datetime -> string.

(** A hosted provider whose call raises or whose text does not parse
    makes [generate_json] raise an [Exception]. *)
Lemma hosted_failure_raises (c : ai_client) (prompt : string)
    (w : world datetime) :
  client_provider c <> Local ->
  (exists e, client_llm c (calls w) = Raise e /\ isinstance e Exception = true)
  \/ (exists text, client_llm c (calls w) = Ok text
                   /\ json_loads (strip_fences text) = None) ->
  exists e,
    ask_json json_loads datetime c prompt w
    = (Raise e, with_calls (S (calls w)) w)
    /\ isinstance e Exception = true.
Proof.
  intros Hp Hfail. unfold ask_json, Client.generate_json, Client.generate.
  destruct (client_provider c); try (exfalso; apply Hp; reflexivity);
    (destruct Hfail as [(e & Hllm & He) | (text & Hllm & Hparse)];
     rewrite Hllm; [exists e; auto | rewrite Hparse; exists JSONDecodeError; auto]).
Qed.

(** The local provider, after three answers that do not parse, returns
    the fallback of its keyword test. *)
Lemma local_failure_falls_back (c : ai_client) (prompt : string)
    (w : world datetime) :
  client_provider c = Local ->
  LocalModel.unparseable_from json_loads (client_llm c) (calls w) 3 ->
  ask_json json_loads datetime c prompt w
  = (Ok (LocalModel._get_fallback_structure JARVIS_SYSTEM_PROMPT prompt),
     with_calls (calls w + 3)%nat w).
Proof.
  intros Hp Hbad. unfold ask_json, Client.generate_json. rewrite Hp.
  rewrite (generate_json_exhausted json_loads JARVIS_SYSTEM_PROMPT prompt
             (client_llm c) (calls w) Hbad).
  reflexivity.
Qed.

(** ** Intent classification *)

(** C8, as the code has it.  On every classification-failure path the
    pipeline proceeds with a fallback whose intent is GENERAL.  With a
    hosted provider (the call raises, or its text does not parse) it is
    intent GENERAL, confidence 0.5, reasoning [Failed to classify,
    defaulting to GENERAL]; with the local provider (three answers that do
    not parse) it is the generator's own fallback: intent GENERAL,
    confidence 0.3, reasoning [Fallback - model failed to classify]. *)
Theorem classification_failure_falls_back_to_general :
  forall (c : ai_client) (subject body : string) (w : world datetime),
    (client_provider c <> Local ->
     (exists e, client_llm c (calls w) = Raise e
                /\ isinstance e Exception = true)
     \/ (exists text, client_llm c (calls w) = Ok text
                      /\ json_loads (strip_fences text) = None) ->
     classify_intent json_loads datetime c subject body w
     = (Ok (JDict [("intent", JStr "GENERAL");
                   ("confidence", JFloat (1 # 2)%Q);
                   ("reasoning",
                    JStr "Failed to classify, defaulting to GENERAL")]),
        with_calls (S (calls w)) w))
    /\ (client_provider c = Local ->
        LocalModel.unparseable_from json_loads (client_llm c) (calls w) 3 ->
        classify_intent json_loads datetime c subject body w
        = (Ok (JDict [("intent", JStr "GENERAL");
                      ("confidence", JFloat (3 # 10)%Q);
                      ("reasoning",
                       JStr "Fallback - model failed to classify")]),
           with_calls (calls w + 3)%nat w)).
Proof.
  intros c subject body w. split.
  - intros Hp Hfail. unfold classify_intent.
    destruct (hosted_failure_raises c (format_intent_prompt subject body) w
                Hp Hfail) as (e & Heq & He).
    rewrite Heq, He. reflexivity.
  - intros Hp Hbad. unfold classify_intent.
    rewrite (local_failure_falls_back c _ w Hp Hbad).
    rewrite intent_prompt_selects_intent_fallback. reflexivity.
Qed.

(** ** The lookahead window *)

Lemma eq_str_other (v : json) (s : string) :
  v <> JStr s -> eq_str v s = false.
Proof.
  intros H. destruct v; try reflexivity. simpl.
  apply String.eqb_neq. intros ->. apply H. reflexivity.
Qed.

(** C9. When the query type is assignments_due, the time filter gives
    the lookahead window: today and tomorrow 1 day, this_week 7 days,
    next_week 14 days, and every other value, all and null among them,
    30 days; that number is the one the upcoming assignments are fetched
    with. *)
Theorem time_filter_lookahead_window :
  lookahead_days (JStr "today") = 1%Z
  /\ lookahead_days (JStr "tomorrow") = 1%Z
  /\ lookahead_days (JStr "this_week") = 7%Z
  /\ lookahead_days (JStr "next_week") = 14%Z
  /\ lookahead_days (JStr "all") = 30%Z
  /\ lookahead_days JNull = 30%Z
  /\ (forall v,
        v <> JStr "today" -> v <> JStr "tomorrow" ->
        v <> JStr "this_week" -> v <> JStr "next_week" ->
        lookahead_days v = 30%Z)
  /\ (forall (d : database datetime) (query_analysis time_filter : json),
        item query_analysis "query_type" = Ok (JStr "assignments_due") ->
        item query_analysis "time_filter" = Ok time_filter ->
        fetch_relevant_data datetime upcoming_text notes_text classes_text
                            d query_analysis
        = Ok (upcoming_text d (lookahead_days time_filter))).
Proof.
  repeat (split; [reflexivity |]). split.
  - intros v H1 H2 H3 H4. unfold lookahead_days.
    rewrite (eq_str_other _ _ H1), (eq_str_other _ _ H2),
            (eq_str_other _ _ H3), (eq_str_other _ _ H4).
    reflexivity.
  - intros d qa tf Hq Ht. unfold fetch_relevant_data.
    rewrite Hq, Ht. reflexivity.
Qed.

(** ** Assignments without a usable due date *)

Lemma ask_json_keeps_db (c : ai_client) (prompt : string)
    (w w' : world datetime) (r : result json) :
  ask_json json_loads datetime c prompt w = (r, w') -> db w' = db w.
Proof.
  unfold ask_json.
  destruct (Client.generate_json json_loads c JARVIS_SYSTEM_PROMPT prompt
                                 (calls w)) as [r0 n].
  intros H. injection H as _ <-. reflexivity.
Qed.

Lemma extract_keeps_db (c : ai_client) (subject body : string)
    (w w' : world datetime) (r : result json) :
  extract_assignment_entities json_loads datetime current_date
                              c subject body w = (r, w') ->
  db w' = db w.
Proof.
  unfold extract_assignment_entities.
  destruct (ask_json json_loads datetime c
              (format_entity_extraction_assignment subject body current_date) w)
    as [r0 w0] eqn:Hask.
  pose proof (ask_json_keeps_db _ _ _ _ _ Hask) as Hdb.
  destruct r0 as [v | e]; [| destruct (isinstance e Exception)];
    intros H; injection H as _ <-; exact Hdb.
Qed.

(** C7. When the extraction of an assignment email yields a mapping whose
    due_date is missing or null, or is a value that does not parse as an
    ISO date, [process_assignment] returns (it does not raise) a result
    with success false, the error code no_due_date or invalid_due_date
    and a message, and the store is what it was: no class and no
    assignment was created. *)
Theorem unusable_due_date_is_reported_and_nothing_saved :
  forall (c : ai_client) (p : parsed_email) (w w' : world datetime)
         (entities : list (string * json)),
    extract_assignment_entities json_loads datetime current_date
                                c (subject p) (body p) w
    = (Ok (JDict entities), w') ->
    let outcome :=
      process_assignment json_loads datetime fromisoformat strftime_due
                         strftime_reminder py_str current_date c p w in
    db w' = db w
    /\ (assoc "due_date" entities = None
        \/ assoc "due_date" entities = Some JNull ->
        outcome = (Ok no_due_date_result, w'))
    /\ (forall v,
          assoc "due_date" entities = Some v ->
          parse_due_date datetime fromisoformat v = None ->
          outcome = (Ok (if truthy v then invalid_due_date_result
                         else no_due_date_result), w'))
    /\ get no_due_date_result "success" = Ok (JBool false)
    /\ get no_due_date_result "error" = Ok (JStr "no_due_date")
    /\ has_message no_due_date_result
    /\ get invalid_due_date_result "success" = Ok (JBool false)
    /\ get invalid_due_date_result "error" = Ok (JStr "invalid_due_date")
    /\ has_message invalid_due_date_result.
Proof.
  intros c p w w' entities Hex outcome.
  split; [exact (extract_keeps_db _ _ _ _ _ _ Hex) |].
  split; [| split].
  - intros Habsent. unfold outcome, process_assignment. rewrite Hex.
    unfold get. destruct Habsent as [H | H]; rewrite H; reflexivity.
  - intros v Hv Hparse. unfold outcome, process_assignment. rewrite Hex.
    unfold get. rewrite Hv.
    destruct (truthy v); cbn [negb]; [rewrite Hparse |]; reflexivity.
  - repeat split; try reflexivity;
      unfold has_message; do 2 eexists; (split; reflexivity).
Qed.

End Pipeline.

(** C8, as the code has it, at a hosted and at a local provider whose backend
    only answers in prose. *)
Lemma classification_failure_witness :
  classify_intent sample_json_loads Z (hosted_client prose_backend)
                  "Question" "What is due this week?" sample_world
  = (Ok (JDict [("intent", JStr "GENERAL");
                ("confidence", JFloat (1 # 2)%Q);
                ("reasoning",
                 JStr "Failed to classify, defaulting to GENERAL")]),
     with_calls 1 sample_world)
  /\ classify_intent sample_json_loads Z (local_client prose_backend)
                     "Question" "What is due this week?" sample_world
     = (Ok (JDict [("intent", JStr "GENERAL");
                   ("confidence", JFloat (3 # 10)%Q);
                   ("reasoning",
                    JStr "Fallback - model failed to classify")]),
        with_calls 3 sample_world).
Proof.
  split.
  - apply (proj1 (classification_failure_falls_back_to_general
                    sample_json_loads Z (hosted_client prose_backend)
                    "Question" "What is due this week?" sample_world)).
    + simpl. discriminate.
    + right. eexists. split; reflexivity.
  - apply (proj2 (classification_failure_falls_back_to_general
                    sample_json_loads Z (local_client prose_backend)
                    "Question" "What is due this week?" sample_world)).
    + reflexivity.
    + intros k Hk. eexists. split; reflexivity.
Defined.

(** C8 in the specification's wording fails: with the local provider and a
    backend that only
    answers in prose, the classification falls back to confidence 0.3
    and another reasoning text, and with a hosted provider to confidence
    0.5 but, again, another reasoning text; neither is the result the
    specification gives. *)
Lemma classification_fallback_differs_from_the_stated_one :
  fst (classify_intent sample_json_loads Z (local_client prose_backend)
                       "Question" "What is due this week?" sample_world)
  = Ok (JDict [("intent", JStr "GENERAL");
               ("confidence", JFloat (3 # 10)%Q);
               ("reasoning", JStr "Fallback - model failed to classify")])
  /\ fst (classify_intent sample_json_loads Z (hosted_client prose_backend)
                          "Question" "What is due this week?" sample_world)
     = Ok (JDict [("intent", JStr "GENERAL");
                  ("confidence", JFloat (1 # 2)%Q);
                  ("reasoning",
                   JStr "Failed to classify, defaulting to GENERAL")])
  /\ fst (classify_intent sample_json_loads Z (local_client prose_backend)
                          "Question" "What is due this week?" sample_world)
     <> Ok specified_classification_fallback
  /\ fst (classify_intent sample_json_loads Z (hosted_client prose_backend)
                          "Question" "What is due this week?" sample_world)
     <> Ok specified_classification_fallback
  /\ Qeq_bool (3 # 10) (1 # 2) = false.
Proof.
  split; [reflexivity |]. split; [reflexivity |].
  split; [| split; [| reflexivity]]; vm_compute; discriminate.
Qed.

(** C9 at a filter the code does not name and at a query for the
    assignments of this week. *)
Lemma time_filter_witness :
  lookahead_days (JStr "next_month") = 30%Z
  /\ fetch_relevant_data Z window_text (fun _ _ => Ok EmptyString)
                         (fun _ => EmptyString) (db sample_world)
                         this_week_analysis
     = Ok "within 7 days".
Proof.
  pose proof (time_filter_lookahead_window
                Z window_text (fun _ _ => Ok EmptyString)
                (fun _ => EmptyString))
    as (_ & _ & _ & _ & _ & _ & Hother & Hfetch).
  split.
  - apply Hother; discriminate.
  - exact (Hfetch (db sample_world) this_week_analysis (JStr "this_week")
                  eq_refl eq_refl).
Defined.

(** C7 at a local provider whose backend only answers in prose (the
    extraction falls back to a null due date) and at a hosted provider
    whose backend gives the due date as [next Friday]. *)
Lemma unusable_due_date_witness :
  sample_process_assignment (local_client prose_backend) due_question sample_world
  = (Ok no_due_date_result, with_calls 3 sample_world)
  /\ sample_process_assignment (hosted_client vague_assignment_backend)
                               due_question sample_world
     = (Ok invalid_due_date_result, with_calls 1 sample_world)
  /\ db (with_calls 3 sample_world) = db sample_world.
Proof.
  pose proof (unusable_due_date_is_reported_and_nothing_saved
                sample_json_loads Z (fun _ => None)
                (fun _ => EmptyString) (fun _ => EmptyString)
                (fun _ => EmptyString) "2024-10-01T09:00:00"
                (local_client prose_backend) due_question sample_world
                (with_calls 3 sample_world)
                [("class_name", JNull); ("due_date", JNull);
                 ("title", JStr "Untitled Assignment");
                 ("description", JNull); ("priority", JStr "medium")]
                eq_refl) as (Hdb & Hnull & _).
  pose proof (unusable_due_date_is_reported_and_nothing_saved
                sample_json_loads Z (fun _ => None)
                (fun _ => EmptyString) (fun _ => EmptyString)
                (fun _ => EmptyString) "2024-10-01T09:00:00"
                (hosted_client vague_assignment_backend) due_question sample_world
                (with_calls 1 sample_world)
                [("title", JStr "Essay"); ("due_date", JStr "next Friday")]
                eq_refl) as (_ & _ & Hbad & _).
  split; [| split].
  - apply Hnull. right. reflexivity.
  - exact (Hbad (JStr "next Friday") eq_refl eq_refl).
  - exact Hdb.
Defined.

(** C5. [process_email] raises on backend behaviour the specification
    covers.
    With the local provider, an email classified as a query whose
    query analysis never parses reaches the generator's fallback; the
    keyword test picks the assignment shape (the prompt names
    assignments_due and the system prompt names assignments), which has
    no query_type, and the lookup raises [KeyError].  With a hosted
    provider, a classification answered by the empty object raises
    [KeyError] at the lookup of the intent. *)
Theorem process_email_raises_on_unexpected_shapes :
  LocalModel._get_fallback_structure
    JARVIS_SYSTEM_PROMPT (format_query_understanding (body due_question))
  = LocalModel.assignment_fallback
  /\ fst (sample_process_email (local_client query_then_prose_backend)
                               due_question sample_world)
     = Raise KeyError
  /\ fst (sample_process_email (hosted_client empty_object_backend)
                               due_question sample_world)
     = Raise KeyError.
Proof. repeat split; vm_compute; reflexivity. Qed.

End PipelineProps.

(* ================================================================== *)
(** * Further properties of the poller *)
(* ================================================================== *)

Module PollerMore.

Import Poller PollerAux Samples PollerProps.
Local Open Scope string_scope.


(** ** The idempotency gate *)

Lemma poll_each_gate (callback : handler) (chk : option processed_check)
    (emails : list (email_id * email_message)) :
  forall log eid,
    In eid (handled_ids (snd (poll_each callback chk emails log))) ->
    In eid (handled_ids log)
    \/ (already_processed chk eid = false /\ In eid (map fst emails)).
Proof.
  induction emails as [| [eid0 m] rest IH]; intros log eid Hin.
  - left. exact Hin.
  - cbn [poll_each] in Hin.
    assert (Hstep : forall ev,
              In eid (handled_ids (log ++ ev)) ->
              (forall x, In x (handled_ids ev) -> x = eid0) ->
              already_processed chk eid0 = false ->
              In eid (handled_ids log)
              \/ (already_processed chk eid = false
                  /\ In eid (map fst ((eid0, m) :: rest)))).
    { intros ev H Hev Hfree. rewrite handled_ids_app in H.
      apply in_app_or in H. destruct H as [H | H]; [left; exact H |].
      right. rewrite (Hev _ H) in *. split; [exact Hfree | left; reflexivity]. }
    assert (Hmore : forall ev,
              In eid (handled_ids (snd (poll_each callback chk rest (log ++ ev)))) ->
              (forall x, In x (handled_ids ev) -> x = eid0) ->
              (handled_ids ev <> [] -> already_processed chk eid0 = false) ->
              In eid (handled_ids log)
              \/ (already_processed chk eid = false
                  /\ In eid (map fst ((eid0, m) :: rest)))).
    { intros ev H Hev Hfree.
      destruct (IH _ _ H) as [H' | [H1 H2]].
      - rewrite handled_ids_app in H'. apply in_app_or in H'.
        destruct H' as [H' | H']; [left; exact H' |].
        right. rewrite (Hev _ H') in *. split; [| left; reflexivity].
        apply Hfree. intros Hnil. rewrite Hnil in H'. exact H'.
      - right. split; [exact H1 | right; exact H2]. }
    unfold already_processed in Hstep, Hmore.
    destruct chk as [f |].
    + destruct (f eid0) as [[|] | e] eqn:Hf.
      * apply (Hmore [Skipped eid0]); [exact Hin | intros x [] |].
        intros Hne. exfalso. apply Hne. reflexivity.
      * destruct (msg_subject m); [| left; exact Hin].
        destruct (callback eid0 m) as [u | e].
        -- apply (Hmore [Handled eid0]); [exact Hin | |].
           ++ intros x [<- | []]. reflexivity.
           ++ intros _. reflexivity.
        -- destruct (isinstance e Exception).
           ++ apply (Hmore [Handled eid0; HandlerErrorLogged eid0 e]);
                [exact Hin | |].
              ** intros x [<- | []]. reflexivity.
              ** intros _. reflexivity.
           ++ apply (Hstep [Handled eid0]); [exact Hin | |].
              ** intros x [<- | []]. reflexivity.
              ** reflexivity.
      * left. exact Hin.
    + destruct (msg_subject m); [| left; exact Hin].
      destruct (callback eid0 m) as [u | e].
      * apply (Hmore [Handled eid0]); [exact Hin | |].
        -- intros x [<- | []]. reflexivity.
        -- intros _. reflexivity.
      * destruct (isinstance e Exception).
        -- apply (Hmore [Handled eid0; HandlerErrorLogged eid0 e]);
             [exact Hin | |].
           ++ intros x [<- | []]. reflexivity.
           ++ intros _. reflexivity.
        -- apply (Hstep [Handled eid0]); [exact Hin | |].
           ++ intros x [<- | []]. reflexivity.
           ++ reflexivity.
Qed.

(** X2. Whatever the mailbox, the handler and the idempotency check do,
    a poll hands to the handler only messages of the fetched batch that
    the check did not report as processed. *)
Theorem poll_hands_over_only_unprocessed_mail :
  forall (imap : option imap_session) (callback : handler)
         (chk : option processed_check) (eid : email_id),
    In eid (handled_ids (snd (poll imap callback chk))) ->
    already_processed chk eid = false
    /\ exists emails,
         get_unread_emails imap = Ok (Some emails)
         /\ In eid (map fst emails).
Proof.
  intros imap callback chk eid. unfold poll.
  destruct (get_unread_emails imap) as [[emails |] | e] eqn:Hget.
  - destruct emails as [| em rest].
    + simpl. intros [].
    + intros Hin.
      assert (Hlog : In eid (handled_ids
                (snd (poll_each callback chk (em :: rest) [])))).
      { destruct (poll_each callback chk (em :: rest) []) as [[u | e] log];
          simpl in *; [exact Hin |].
        destruct (isinstance e Exception); exact Hin. }
      destruct (poll_each_gate _ _ _ _ _ Hlog) as [[] | [H1 H2]].
      split; [exact H1 |]. exists (em :: rest). auto.
  - simpl. intros [].
  - simpl. destruct (isinstance e Exception); simpl; intros [].
Qed.

(** The theorem at a batch of three messages of which the check knows
    the second: the first is handed over, so it is not a known one. *)
Lemma poll_gate_witness :
  already_processed (Some knows_2) "1" = false
  /\ exists emails,
       get_unread_emails (Some three_mail_session) = Ok (Some emails)
       /\ In "1" (map fst emails).
Proof.
  apply (poll_hands_over_only_unprocessed_mail
           (Some three_mail_session) quiet_handler (Some knows_2) "1").
  left. reflexivity.
Defined.

(** ** What a fetch returns *)

Lemma fetch_each_ids (s : imap_session) (email_ids : list email_id) :
  forall emails,
    (forall eid, In eid email_ids ->
       exists status msg_data,
         imap_fetch s eid = Ok (status, msg_data)
         /\ (status_ok status = true -> exists m, msg_data = Ok m)) ->
    exists fetched,
      fetch_each s email_ids emails = Ok fetched
      /\ map fst fetched
         = (map fst emails ++ filter (fetch_ok s) email_ids)%list.
Proof.
  induction email_ids as [| eid rest IH]; intros emails Hall.
  - exists emails. simpl. rewrite app_nil_r. auto.
  - destruct (Hall eid (or_introl eq_refl)) as (status & msg_data & Hf & Hm).
    assert (Hrest : forall eid', In eid' rest ->
              exists status msg_data,
                imap_fetch s eid' = Ok (status, msg_data)
                /\ (status_ok status = true -> exists m, msg_data = Ok m)).
    { intros eid' H'. apply Hall. right. exact H'. }
    cbn [fetch_each filter]. unfold fetch_ok at 1. rewrite Hf.
    destruct (status_ok status) eqn:Hst; cbn [negb].
    + destruct (Hm eq_refl) as [m ->].
      destruct (IH (emails ++ [(eid, m)])%list Hrest) as (fetched & H1 & H2).
      exists fetched. split; [exact H1 |].
      rewrite H2, map_app, <- app_assoc. reflexivity.
    + apply IH. exact Hrest.
Qed.

(** X4. When the mailbox answers every request, [get_unread_emails]
    returns the unseen messages whose fetch answered OK, in the order of
    the search; a message whose fetch answered otherwise is left out and
    the others are still returned. *)
Theorem get_unread_emails_returns_the_fetched_ids_in_order :
  forall (s : imap_session) (email_ids : list email_id),
    imap_select s = Ok tt ->
    imap_search s = Ok ("OK", email_ids) ->
    (forall eid, In eid email_ids ->
       exists status msg_data,
         imap_fetch s eid = Ok (status, msg_data)
         /\ (status_ok status = true -> exists m, msg_data = Ok m)) ->
    exists emails,
      get_unread_emails (Some s) = Ok (Some emails)
      /\ map fst emails = filter (fetch_ok s) email_ids.
Proof.
  intros s email_ids Hsel Hsearch Hall.
  unfold get_unread_emails, get_unread_emails_try.
  rewrite Hsel, Hsearch. simpl.
  destruct email_ids as [| eid rest].
  - exists []. auto.
  - destruct (fetch_each_ids s (eid :: rest) [] Hall) as (fetched & H1 & H2).
    rewrite H1. exists fetched. auto.
Qed.

(** The theorem at a mailbox of three messages whose second cannot be
    fetched. *)
Lemma get_unread_emails_witness :
  exists emails,
    get_unread_emails (Some partial_session) = Ok (Some emails)
    /\ map fst emails = filter (fetch_ok partial_session) ["1"; "2"; "3"].
Proof.
  apply (get_unread_emails_returns_the_fetched_ids_in_order
           partial_session ["1"; "2"; "3"] eq_refl eq_refl).
  intros eid Hin.
  destruct Hin as [<- | [<- | [<- | []]]];
    do 2 eexists; (split; [reflexivity |]);
    intros H; try discriminate H; eexists; reflexivity.
Defined.

(** ** Errors of the idempotency check *)

Lemma poll_each_app (callback : handler) (chk : option processed_check)
    (pre rest : list (email_id * email_message)) :
  forall log,
    poll_each callback chk (pre ++ rest)%list log
    = match poll_each callback chk pre log with
      | (Ok _, log') => poll_each callback chk rest log'
      | r => r
      end.
Proof.
  induction pre as [| [eid m] pre IH]; intros log; [reflexivity |].
  cbn [app poll_each].
  destruct (match chk with None => Ok false | Some f => f eid end)
    as [[|] | e]; [apply IH | | reflexivity].
  destruct (msg_subject m); [| reflexivity].
  destruct (callback eid m) as [u | e]; [apply IH |].
  destruct (isinstance e Exception); [apply IH | reflexivity].
Qed.

(** X5. An [Exception] raised by the idempotency check, or by the
    decoding of a subject, is not caught per message: the poll stops at
    that message, reports a connection failure (so that the loop
    reconnects), and the messages after it never reach the handler. *)
Theorem check_error_aborts_the_batch_as_a_connection_failure :
  forall (imap : option imap_session)
         (pre post : list (email_id * email_message))
         (eid : email_id) (m : email_message)
         (callback : handler) (chk : option processed_check) (e : exn_class),
    get_unread_emails imap = Ok (Some (pre ++ (eid, m) :: post)%list) ->
    (forall eid' m' e', callback eid' m' = Raise e' ->
                        isinstance e' Exception = true) ->
    (forall eid' m', In (eid', m') pre ->
       (forall f, chk = Some f -> exists ok, f eid' = Ok ok)
       /\ exists s, msg_subject m' = Ok s) ->
    (exists f, chk = Some f /\ f eid = Raise e)
    \/ (already_processed chk eid = false
        /\ (forall f, chk = Some f -> f eid = Ok false)
        /\ msg_subject m = Raise e) ->
    isinstance e Exception = true ->
    fst (poll imap callback chk) = Ok false
    /\ handled_ids (snd (poll imap callback chk)) = to_handle chk pre.
Proof.
  intros imap pre post eid m callback chk e Hget Hcb Hpre Hfail He.
  destruct (poll_each_handles_all callback chk pre Hcb Hpre [])
    as (log' & Hrun & Hids).
  assert (Hbatch : poll_each callback chk (pre ++ (eid, m) :: post)%list []
                   = (Raise e, log')).
  { rewrite poll_each_app, Hrun. cbn [poll_each].
    destruct Hfail as [(f & -> & Hf) | (_ & Hf & Hs)].
    - rewrite Hf. reflexivity.
    - destruct chk as [f |]; [rewrite (Hf f eq_refl) |]; rewrite Hs;
        reflexivity. }
  unfold poll. rewrite Hget.
  destruct (pre ++ (eid, m) :: post)%list eqn:Hl.
  - destruct pre; discriminate Hl.
  - rewrite Hbatch. cbn. rewrite He. cbn. split; [reflexivity | exact Hids].
Qed.

(** The theorem at a batch of three messages whose idempotency check
    fails on the second. *)
Lemma check_error_witness :
  fst (poll (Some three_mail_session) quiet_handler (Some fails_on_2))
  = Ok false
  /\ handled_ids (snd (poll (Some three_mail_session) quiet_handler
                            (Some fails_on_2)))
     = to_handle (Some fails_on_2) [("1", plain_message)].
Proof.
  apply (check_error_aborts_the_batch_as_a_connection_failure
           (Some three_mail_session) [("1", plain_message)]
           [("3", plain_message)] "2" plain_message
           quiet_handler (Some fails_on_2) SqliteError).
  - reflexivity.
  - intros eid' m' e' H. discriminate H.
  - intros eid' m' [H | []]. injection H as <- <-.
    split; [| eexists; reflexivity].
    intros f Hf. injection Hf as <-. eexists. reflexivity.
  - left. eexists. split; reflexivity.
  - reflexivity.
Defined.

End PollerMore.

(* ================================================================== *)
(** * Further properties of the processing queue *)
(* ================================================================== *)

Module QueueMore.

Import Queue QueueAux Samples QueueProps.

(** A step of the worker moves at most the head of the queue into its
    hand, and never touches the [running] flag. *)
Lemma worker_step_takes_the_head (q : processing_queue) :
  taken_by_step q ++ queue (worker_step q) = queue q
  /\ running (worker_step q) = running q.
Proof.
  destruct q as [items r a w hand tp te].
  unfold taken_by_step, worker_step.
  cbn [queue running worker_alive waiting in_flight].
  destruct a; cbn [negb].
  - destruct hand as [it |].
    + destruct (item_callback it (item_email_data it)) as [u | e];
        [| destruct (isinstance e Exception)]; cbn; auto.
    + destruct w; [destruct items | destruct r]; cbn; auto.
  - destruct hand; cbn; auto.
Qed.

Lemma run_fifo (evs : list event) :
  forall q,
    running q = true ->
    taken q evs ++ queue (run q evs) = queue q ++ submitted_items evs.
Proof.
  induction evs as [| ev rest IH]; intros q Hr.
  - simpl. rewrite app_nil_r. reflexivity.
  - destruct ev as [it |]; cbn [taken submitted_items run fold_left apply_event].
    + fold (run (snd (submit it q)) rest).
      rewrite IH; unfold submit; rewrite Hr; cbn; [| reflexivity].
      rewrite <- app_assoc. reflexivity.
    + fold (run (worker_step q) rest).
      destruct (worker_step_takes_the_head q) as [Hq Hrun].
      rewrite <- app_assoc, IH by (rewrite Hrun; exact Hr).
      rewrite app_assoc, Hq. reflexivity.
Qed.

(** X6. On a started queue, under every interleaving of submissions and
    worker steps, the items the worker has taken, in the order it took
    them, followed by the items still queued, are the submitted items in
    submission order: the worker takes items first in, first out, and no
    item is lost, duplicated or overtaken, whatever the callbacks do. *)
Theorem worker_takes_items_first_in_first_out :
  forall evs : list event,
    taken (start new_queue) evs ++ queue (run (start new_queue) evs)
    = submitted_items evs.
Proof.
  intros evs. rewrite run_fifo by reflexivity. reflexivity.
Qed.

Lemma stop_clears_running (in_time : bool) (q : processing_queue) :
  running (stop in_time q) = false.
Proof.
  unfold stop. destruct (running q) eqn:Hr; cbn [negb]; [| exact Hr].
  destruct in_time; [| reflexivity].
  repeat rewrite (proj2 (worker_step_takes_the_head _)). reflexivity.
Qed.

(** X7. Once [stop] has been called, with or without the worker exiting
    in time, every [submit] is refused with [RuntimeError] and changes
    nothing: no item can enter a stopped queue.  A second [stop] changes
    nothing either. *)
Theorem no_submission_after_stop :
  forall (in_time again : bool) (q : processing_queue) (it : queue_item),
    submit it (stop in_time q) = (Raise RuntimeError, stop in_time q)
    /\ stop again (stop in_time q) = stop in_time q.
Proof.
  intros in_time again q it.
  pose proof (stop_clears_running in_time q) as Hr.
  unfold submit. rewrite Hr. split; [reflexivity |].
  unfold stop at 1. rewrite Hr. reflexivity.
Qed.

(** ** The counters *)

Lemma count_returning_app (l1 l2 : list queue_item) :
  count_returning (l1 ++ l2) = count_returning l1 + count_returning l2.
Proof.
  unfold count_returning. rewrite filter_app, length_app. lia.
Qed.

Lemma count_raising_app (l1 l2 : list queue_item) :
  count_raising (l1 ++ l2) = count_raising l1 + count_raising l2.
Proof.
  unfold count_raising. rewrite filter_app, length_app. lia.
Qed.

Lemma worker_step_counted (q : processing_queue) (n : Z)
    (tk : list queue_item) :
  accounted q n -> counted q tk ->
  counted (worker_step q) (tk ++ taken_by_step q).
Proof.
  destruct q as [items r a w hand tp te].
  unfold accounted, counted, taken_by_step, worker_step.
  cbn [queue running worker_alive waiting in_flight total_processed
       total_errors].
  intros (-> & -> & Hsum & Hq & Hf) [Hp He]. cbn [negb].
  rewrite count_returning_app, count_raising_app.
  destruct hand as [it |].
  - pose proof (Hf it eq_refl) as Hok.
    unfold returns in Hp, He.
    destruct (item_callback it (item_email_data it)) as [u | e] eqn:Hc.
    + cbn. unfold count_returning, count_raising in *. cbn. lia.
    + rewrite (Hok e Hc). cbn.
      unfold count_returning, count_raising in *. cbn. lia.
  - destruct w; [destruct items as [| it rest] |];
      cbn [in_flight total_processed total_errors];
      unfold count_returning, count_raising in *; cbn [filter];
      try (destruct (returns it)); cbn [negb List.length filter] in *; lia.
Qed.

Lemma run_counted (evs : list event) :
  forall q n tk,
    accounted q n -> counted q tk -> callbacks_ok evs ->
    counted (run q evs) (tk ++ taken q evs).
Proof.
  induction evs as [| ev rest IH]; intros q n tk Hacc Hcnt Hok.
  - simpl. rewrite app_nil_r. exact Hcnt.
  - destruct ev as [it |];
      cbn [taken run fold_left apply_event callbacks_ok] in *.
    + destruct Hok as [Hit Hrest].
      fold (run (snd (submit it q)) rest).
      apply (IH _ (1 + n)); [apply submit_accounted; assumption | | exact Hrest].
      destruct Hacc as (Hr & _). unfold submit. rewrite Hr. exact Hcnt.
    + fold (run (worker_step q) rest). rewrite app_assoc.
      apply (IH _ n);
        [apply worker_step_accounted; assumption
        | apply (worker_step_counted q n); assumption | exact Hok].
Qed.

(** X8. On a started queue whose callbacks raise nothing but
    [Exception]s, whenever the worker has no item in hand,
    [total_processed] is the number of taken items whose callback
    returned and [total_errors] the number of those whose callback
    raised: an error is counted once, as an error, and never as
    processed; the worker is still alive. *)
Theorem counters_tell_returned_from_raised :
  forall evs : list event,
    callbacks_ok evs ->
    let q := run (start new_queue) evs in
    in_flight q = None ->
    total_processed q = count_returning (taken (start new_queue) evs)
    /\ total_errors q = count_raising (taken (start new_queue) evs)
    /\ worker_alive q = true.
Proof.
  intros evs Hok q Hin.
  assert (H0 : counted (start new_queue) []) by (split; reflexivity).
  pose proof (run_counted evs _ _ _ start_accounted H0 Hok) as [Hp He].
  pose proof (run_accounted evs _ _ start_accounted Hok) as (_ & Ha & _).
  fold q in Hp, He, Ha. rewrite Hin in Hp, He. cbn [app] in Hp, He.
  repeat split; [lia | lia | exact Ha].
Qed.

(** The theorem at three submissions, the second of which raises, all
    taken and finished: two processed, one error. *)
Lemma counters_witness :
  total_processed (run (start new_queue) drained) = 2
  /\ total_errors (run (start new_queue) drained) = 1
  /\ worker_alive (run (start new_queue) drained) = true.
Proof.
  apply (counters_tell_returned_from_raised drained).
  - simpl. unfold callback_ok. simpl.
    repeat split; intros e H; try discriminate H; injection H as <-;
      reflexivity.
  - reflexivity.
Defined.

End QueueMore.

(* ================================================================== *)
(** * Further properties of the JSON generators *)
(* ================================================================== *)

Module GeneratorMore.

Import Str StrAux Json LocalModel Prompts Samples GeneratorAux GeneratorProps
       StrFacts.
Local Open Scope string_scope.

(** X9. Under the Jarvis system prompt the keyword test of
    [_get_fallback_structure] never gets past its second branch: the
    prompt itself names assignments, so for every user prompt the
    fallback is the intent shape (when intent or classify occurs) or the
    assignment shape, and never the note, query or generic shape. *)
Theorem jarvis_fallback_is_intent_or_assignment_shape :
  forall user_prompt : string,
    _get_fallback_structure JARVIS_SYSTEM_PROMPT user_prompt
    = (if (contains "intent" (lower (JARVIS_SYSTEM_PROMPT ++ " " ++ user_prompt))
           || contains "classify"
                (lower (JARVIS_SYSTEM_PROMPT ++ " " ++ user_prompt)))%bool
       then intent_fallback else assignment_fallback)
    /\ _get_fallback_structure JARVIS_SYSTEM_PROMPT user_prompt
       <> note_fallback user_prompt
    /\ _get_fallback_structure JARVIS_SYSTEM_PROMPT user_prompt
       <> query_fallback
    /\ _get_fallback_structure JARVIS_SYSTEM_PROMPT user_prompt
       <> generic_fallback user_prompt.
Proof.
  intros user_prompt.
  assert (Ha : contains "assignment"
                 (lower (JARVIS_SYSTEM_PROMPT ++ " " ++ user_prompt)) = true).
  { rewrite lower_app. apply contains_app_l. reflexivity. }
  assert (Heq : _get_fallback_structure JARVIS_SYSTEM_PROMPT user_prompt
                = (if (contains "intent"
                         (lower (JARVIS_SYSTEM_PROMPT ++ " " ++ user_prompt))
                       || contains "classify"
                            (lower (JARVIS_SYSTEM_PROMPT ++ " " ++ user_prompt)))%bool
                   then intent_fallback else assignment_fallback)).
  { unfold _get_fallback_structure. rewrite Ha, orb_true_r. reflexivity. }
  split; [exact Heq |]. rewrite Heq.
  destruct (contains "intent" _ || contains "classify" _)%bool;
    repeat split; discriminate.
Qed.

Section Retry.

Variable json_loads : string -> option json.

(** X10. With a negative retry count [generate_json] does not enter its
    loop: it returns the empty dict without calling the backend. *)
Theorem negative_retries_return_the_empty_dict :
  forall (system_prompt user_prompt : string) (retries : Z)
         (llm : backend) (calls : nat),
    (retries < 0)%Z ->
    generate_json json_loads system_prompt user_prompt retries llm calls
    = (Ok (JDict []), calls).
Proof.
  intros system_prompt user_prompt retries llm calls H.
  unfold generate_json.
  replace (Z.to_nat (retries + 1)) with O by lia. reflexivity.
Qed.

Lemma loop_bounded (system_prompt user_prompt : string) (llm : backend)
    (retries : Z) (remaining : nat) :
  forall (attempt : Z) (calls : nat),
    (forall k e, llm k = Raise e -> isinstance e Exception = true) ->
    (attempt + Z.of_nat remaining = retries)%Z ->
    exists v n,
      generate_json_loop json_loads (S remaining) attempt retries
                         system_prompt user_prompt llm calls
      = (Ok v, n)
      /\ (calls < n <= calls + S remaining)%nat.
Proof.
  induction remaining as [| r IH]; intros attempt calls Hllm Hsum;
    cbn [generate_json_loop]; unfold generate.
  - destruct (llm calls) as [text | e] eqn:Hc;
      [| rewrite (Hllm _ _ Hc)];
      (destruct (json_loads _) as [parsed |];
       [eexists; eexists; split; [reflexivity | lia] |]);
      (destruct (Z.ltb_spec attempt retries); [lia |]);
      eexists; eexists; (split; [reflexivity | lia]).
  - destruct (llm calls) as [text | e] eqn:Hc;
      [| rewrite (Hllm _ _ Hc)];
      (destruct (json_loads _) as [parsed |];
       [eexists; eexists; split; [reflexivity | lia] |]);
      (destruct (Z.ltb_spec attempt retries); [| lia]);
      (destruct (IH (attempt + 1)%Z (S calls) Hllm ltac:(lia))
         as (v & n & Heq & Hn));
      exists v, n; (split; [exact Heq | lia]).
Qed.

(** X11. For every retry count that is not negative and every backend
    whose calls return or raise an [Exception], [generate_json] returns a
    value (it never raises) after at least one and at most retries + 1
    backend calls. *)
Theorem generate_json_returns_within_the_retry_budget :
  forall (system_prompt user_prompt : string) (retries : Z)
         (llm : backend) (calls : nat),
    (0 <= retries)%Z ->
    (forall k e, llm k = Raise e -> isinstance e Exception = true) ->
    exists v n,
      generate_json json_loads system_prompt user_prompt retries llm calls
      = (Ok v, n)
      /\ (calls + 1 <= n <= calls + Z.to_nat retries + 1)%nat.
Proof.
  intros system_prompt user_prompt retries llm calls Hr Hllm.
  unfold generate_json.
  replace (Z.to_nat (retries + 1)) with (S (Z.to_nat retries)) by lia.
  destruct (loop_bounded system_prompt user_prompt llm retries
              (Z.to_nat retries) 0%Z calls Hllm ltac:(lia))
    as (v & n & Heq & Hn).
  exists v, n. split; [exact Heq | lia].
Qed.


End Retry.

(** X11 at the backend that only answers in prose. *)
Lemma retry_budget_witness :
  exists v n,
    generate_json sample_json_loads "You file things." "Summarise this NOTE"
                  2 prose_backend 0
    = (Ok v, n)
    /\ (0 + 1 <= n <= 0 + Z.to_nat 2 + 1)%nat.
Proof.
  apply (generate_json_returns_within_the_retry_budget
           sample_json_loads "You file things." "Summarise this NOTE"
           2 prose_backend 0).
  - lia.
  - intros k e H. discriminate H.
Defined.

(** X10 at a retry count of -1. *)
Lemma negative_retries_witness :
  generate_json sample_json_loads "You file things." "Summarise this NOTE"
                (-1) prose_backend 0
  = (Ok (JDict []), 0%nat).
Proof.
  apply (negative_retries_return_the_empty_dict
           sample_json_loads "You file things." "Summarise this NOTE"
           (-1) prose_backend 0).
  lia.
Defined.


(** ** Cleaning a reply *)

(** X13. [_clean_json_response] recovers a JSON object from the prose
    around it: for a reply made of a lead-in without an opening brace,
    an object in braces and a tail without a closing brace, and with no
    backtick anywhere, the cleaned text is exactly the object, from its
    first brace to its last. *)
Theorem clean_json_response_extracts_the_object :
  forall pre body post : string,
    has_char open_brace pre = false ->
    has_char close_brace post = false ->
    has_char backtick (pre ++ body ++ post) = false ->
    _clean_json_response (pre ++ "{" ++ body ++ "}" ++ post)
    = "{" ++ body ++ "}".
Proof.
  intros pre body post Hpre Hpost Htick.
  unfold open_brace, close_brace in Hpre, Hpost.
  rewrite !has_char_app in Htick.
  apply orb_false_iff in Htick. destruct Htick as [Htpre Htick].
  apply orb_false_iff in Htick. destruct Htick as [Htbody Htpost].
  unfold _clean_json_response.
  change (pre ++ "{" ++ body ++ "}" ++ post)
    with (pre ++ String "{"%char (body ++ String "}"%char post)).
  assert (Hstrip : strip (pre ++ String "{"%char
                                  (body ++ String "}"%char post))
                   = (lstrip pre ++ String "{"%char body)
                     ++ String "}"%char (rstrip post)).
  { unfold strip. rewrite lstrip_app by reflexivity.
    replace (lstrip pre ++ String "{"%char (body ++ String "}"%char post))
      with ((lstrip pre ++ String "{"%char body) ++ String "}"%char post)
      by (rewrite StrFacts.app_assoc; reflexivity).
    apply rstrip_app. reflexivity. }
  rewrite Hstrip.
  assert (Hfence : contains "```"
                     ((lstrip pre ++ String "{"%char body)
                      ++ String "}"%char (rstrip post)) = false).
  { apply no_backtick_no_fence.
    rewrite !has_char_app. cbn [has_char].
    rewrite (has_char_lstrip _ _ Htpre), Htbody, (has_char_rstrip _ _ Htpost).
    reflexivity. }
  rewrite Hfence.
  rewrite (rfind_app "}"%char (lstrip pre ++ String "{"%char body)
             (rstrip post) (has_char_rstrip _ _ Hpost)).
  replace ((lstrip pre ++ String "{"%char body)
           ++ String "}"%char (rstrip post))
    with (lstrip pre ++ String "{"%char
                          (body ++ String "}"%char (rstrip post)))
    by (rewrite StrFacts.app_assoc; reflexivity).
  rewrite (find_app "{"%char (lstrip pre) _ (has_char_lstrip _ _ Hpre)).
  unfold slice. rewrite StrFacts.length_app.
  replace (String.length (lstrip pre) + String.length (String "{"%char body)
           + 1 - String.length (lstrip pre))%nat
    with (String.length (String "{"%char (body ++ String "}"%char
                                                   EmptyString)))
    by (cbn [String.length]; rewrite StrFacts.length_app;
        cbn [String.length]; lia).
  rewrite substring_skip.
  replace (String "{"%char (body ++ String "}"%char (rstrip post)))
    with (String "{"%char (body ++ String "}"%char EmptyString)
          ++ rstrip post)
    by (cbn [append]; rewrite StrFacts.app_assoc; reflexivity).
  apply substring_prefix.
Qed.

(** The theorem at a reply that wraps an object in a sentence. *)
Lemma clean_json_response_witness :
  _clean_json_response
    ("Sure, here it is: " ++ "{" ++ "}" ++ "}" ++ " Hope that helps!")
  = "{" ++ "}" ++ "}".
Proof.
  apply (clean_json_response_extracts_the_object
           "Sure, here it is: " "}" " Hope that helps!");
    reflexivity.
Defined.

(** X14. The hosted providers' cleaning removes a json code fence: a
    reply that is a body without backticks between the opening fence
    with its json tag and the closing fence is reduced to the body,
    stripped of surrounding whitespace. *)
Theorem strip_fences_removes_a_json_fence :
  forall body : string,
    has_char backtick body = false ->
    Client.strip_fences ("```json" ++ body ++ "```") = strip body.
Proof.
  intros body Hbody. unfold Client.strip_fences. cbv zeta.
  assert (Hstrip : strip ("```json" ++ body ++ "```")
                   = "```json" ++ body ++ "```").
  { unfold strip.
    replace ("```json" ++ body ++ "```")
      with (("```json" ++ body ++ "``") ++ String backtick EmptyString)
      by (rewrite !StrFacts.app_assoc; reflexivity).
    change (lstrip (("```json" ++ body ++ "``") ++ String backtick EmptyString))
      with (("```json" ++ body ++ "``") ++ String backtick EmptyString).
    rewrite rstrip_app by reflexivity. reflexivity. }
  rewrite Hstrip.
  assert (Hjson : startswith ("```json" ++ body ++ "```") "```json" = true)
    by apply prefix_self_app.
  rewrite Hjson.
  assert (Hdrop : drop 7 ("```json" ++ body ++ "```") = body ++ "```").
  { unfold drop. rewrite StrFacts.length_app.
    change (String.length "```json") with 7%nat.
    replace (7 + String.length (body ++ "```") - 7)%nat
      with (String.length (body ++ "```")) by lia.
    rewrite (substring_skip "```json").
    rewrite <- (app_empty_r (body ++ "```")) at 2.
    apply substring_prefix. }
  rewrite Hdrop.
  assert (Hend : forall b, endswith (b ++ "```") "```" = true).
  { intros b. unfold endswith. rewrite rev_app. apply prefix_self_app. }
  assert (Hlast : drop_last 3 (body ++ "```") = body).
  { unfold drop_last, take. rewrite StrFacts.length_app.
    change (String.length "```") with 3%nat.
    replace (String.length body + 3 - 3)%nat with (String.length body) by lia.
    apply substring_prefix. }
  destruct body as [| c body'].
  - reflexivity.
  - cbn [has_char] in Hbody. apply orb_false_iff in Hbody.
    destruct Hbody as [Hc _].
    assert (Hstart : startswith (String c body' ++ "```") "```" = false).
    { unfold startswith. cbn [append String.prefix].
      destruct (Ascii.ascii_dec "`"%char c) as [Heq | _]; [| reflexivity].
      unfold backtick in Hc. rewrite <- Heq, Ascii.eqb_refl in Hc.
      discriminate Hc. }
    rewrite Hstart, Hend, Hlast. reflexivity.
Qed.

(** The theorem at the empty object inside a json fence. *)
Lemma strip_fences_witness :
  Client.strip_fences ("```json" ++ fenced_body ++ "```") = strip fenced_body.
Proof.
  apply (strip_fences_removes_a_json_fence fenced_body). reflexivity.
Defined.

End GeneratorMore.

(* ================================================================== *)
(** * Further properties of the classification pipeline *)
(* ================================================================== *)

Module PipelineMore.

Import Str Json Prompts Client Processor Samples PipelineAux GeneratorProps
       PipelineProps.
Local Open Scope string_scope.

Section Pipeline.

Variable json_loads : string -> option json.
Variable datetime : Type.
Variable fromisoformat : string -> option datetime.
Variable strftime_due : datetime -> string.
Variable strftime_reminder : datetime -> string.
Variable py_str : json -> string.
Variable current_date : string.
Variable process_note :
  parsed_email -> world datetime -> result json * world datetime.
Variable upcoming_text : database datetime -> Z -> string.
Variable notes_text : database datetime -> json -> result string.
Variable classes_text : database datetime -> string.


(** ** The GENERAL branch *)

Lemma general_branch (c : ai_client) (p : parsed_email)
    (w w' : world datetime) (intent_result intent confidence : json) :
  classify_intent json_loads datetime c (subject p) (body p) w
  = (Ok intent_result, w') ->
  item intent_result "intent" = Ok intent ->
  item intent_result "confidence" = Ok confidence ->
  format_2f_ok confidence = Ok tt ->
  intent <> JStr "ASSIGNMENT" -> intent <> JStr "NOTE" ->
  intent <> JStr "QUERY" ->
  process_email json_loads datetime fromisoformat strftime_due
                strftime_reminder py_str current_date process_note
                upcoming_text notes_text classes_text c p w
  = (Ok (JDict [("success", JBool true); ("message", JStr general_message)]),
     w').
Proof.
  intros Hc Hi Hconf Hfmt H1 H2 H3. unfold process_email.
  rewrite Hc, Hi, Hconf, Hfmt.
  rewrite (eq_str_other _ _ H1), (eq_str_other _ _ H2), (eq_str_other _ _ H3).
  reflexivity.
Qed.


(** X17. A classification that fails falls through to the GENERAL
    branch on either provider: with a hosted provider whose call raises
    or whose text does not parse, after that one call, and with the local
    provider after three answers that do not parse, [process_email]
    returns success with the static guidance message. *)
Theorem failed_classification_gets_the_guidance_reply :
  forall (c : ai_client) (p : parsed_email) (w : world datetime),
    (client_provider c <> Local ->
     (exists e, client_llm c (calls w) = Raise e
                /\ isinstance e Exception = true)
     \/ (exists text, client_llm c (calls w) = Ok text
                      /\ json_loads (strip_fences text) = None) ->
     process_email json_loads datetime fromisoformat strftime_due
                   strftime_reminder py_str current_date process_note
                   upcoming_text notes_text classes_text c p w
     = (Ok (JDict [("success", JBool true);
                   ("message", JStr general_message)]),
        with_calls (S (calls w)) w))
    /\ (client_provider c = Local ->
        LocalModel.unparseable_from json_loads (client_llm c) (calls w) 3 ->
        process_email json_loads datetime fromisoformat strftime_due
                      strftime_reminder py_str current_date process_note
                      upcoming_text notes_text classes_text c p w
        = (Ok (JDict [("success", JBool true);
                      ("message", JStr general_message)]),
           with_calls (calls w + 3)%nat w)).
Proof.
  intros c p w. split.
  - intros Hp Hfail.
    destruct (hosted_failure_raises json_loads datetime c
                (format_intent_prompt (subject p) (body p)) w Hp Hfail)
      as (e & Heq & He).
    apply (general_branch c p w _ (classify_fallback) (JStr "GENERAL")
                          (JFloat (1 # 2)%Q));
      try reflexivity; try discriminate.
    unfold classify_intent. rewrite Heq, He. reflexivity.
  - intros Hp Hbad.
    apply (general_branch c p w _ LocalModel.intent_fallback (JStr "GENERAL")
                          (JFloat (3 # 10)%Q));
      try reflexivity; try discriminate.
    unfold classify_intent.
    rewrite (local_failure_falls_back json_loads datetime c _ w Hp Hbad).
    rewrite intent_prompt_selects_intent_fallback. reflexivity.
Qed.

(** ** The store *)

Lemma find_by_name_lower (rows : list (Z * string)) (name name' : string) :
  lower name' = lower name ->
  find_by_name rows name' = find_by_name rows name.
Proof.
  intros H. induction rows as [| [id n] rest IH]; simpl; [reflexivity |].
  rewrite H, IH. reflexivity.
Qed.

Lemma find_by_name_new (rows : list (Z * string)) (id : Z) (name : string) :
  find_by_name rows name = None ->
  find_by_name (rows ++ [(id, name)])%list name = Some id.
Proof.
  induction rows as [| [id0 n] rest IH]; simpl.
  - intros _. rewrite String.eqb_refl. reflexivity.
  - destruct (String.eqb (lower n) (lower name)); [discriminate | exact IH].
Qed.

(** X18. [Classes.get_or_create] is idempotent and blind to letter
    case: after a call with a class name, a second call with that name
    in any letter case returns the same id and leaves the table as it
    is; a call adds at most one row. *)
Theorem get_or_create_is_idempotent_up_to_case :
  forall (d d' : database datetime) (name name' : string) (id : Z),
    get_or_create datetime py_str d (JStr name) = (Ok id, d') ->
    lower name' = lower name ->
    get_or_create datetime py_str d' (JStr name') = (Ok id, d')
    /\ assignments d' = assignments d
    /\ (classes d' = classes d
        \/ classes d' = (classes d ++ [(id, name)])%list).
Proof.
  intros d d' name name' id Hfirst Hcase.
  unfold get_or_create in *. cbn [bindable negb] in *.
  rewrite (find_by_name_lower _ _ _ Hcase).
  destruct (find_by_name (classes d) name) as [id0 |] eqn:Hfind.
  - injection Hfirst as <- <-. rewrite Hfind. auto.
  - injection Hfirst as <- <-. cbn [classes assignments].
    rewrite (find_by_name_new _ _ _ Hfind). auto.
Qed.

(** ** Saving an assignment *)


(** X20. [process_assignment] is not atomic: when the extraction yields
    a due date that parses but no title, the lookup of the title raises
    [KeyError] after [Classes.get_or_create] has run, so no assignment
    is saved, yet a class the store did not know has been created. *)
Theorem missing_title_raises_after_the_class_is_created :
  forall (c : ai_client) (p : parsed_email) (w w' : world datetime)
         (entities : list (string * json)) (s name : string)
         (due : datetime),
    extract_assignment_entities json_loads datetime current_date
                                c (subject p) (body p) w
    = (Ok (JDict entities), w') ->
    assoc "due_date" entities = Some (JStr s) -> s <> EmptyString ->
    fromisoformat s = Some due ->
    assoc "title" entities = None ->
    assoc "class_name" entities = Some (JStr name) -> name <> EmptyString ->
    find_by_name (classes (db w)) name = None ->
    process_assignment json_loads datetime fromisoformat strftime_due
                       strftime_reminder py_str current_date c p w
    = (Raise KeyError,
       with_db {| classes :=
                    (classes (db w)
                     ++ [(Z.of_nat (List.length (classes (db w))) + 1,
                          name)])%list;
                  assignments := assignments (db w) |} w').
Proof.
  intros c p w w' entities s name due Hex Hdue Hs Hiso Htitle Hcn Hname Hnew.
  pose proof (extract_keeps_db json_loads datetime current_date
                _ _ _ _ _ _ Hex) as Hdb.
  unfold process_assignment. rewrite Hex.
  cbn [get]. rewrite Hdue. cbn [truthy].
  destruct (String.eqb_spec s EmptyString) as [Heq | _]; [contradiction |].
  cbn [negb parse_due_date]. rewrite Hiso.
  unfold save_assignment. cbn [get]. rewrite Hcn. cbn [truthy].
  destruct (String.eqb_spec name EmptyString) as [Heq | _]; [contradiction |].
  cbn [negb]. unfold get_or_create. cbn [bindable negb].
  rewrite Hdb, Hnew. cbn [item db with_db]. rewrite Htitle. reflexivity.
Qed.

(** ** A query without a backend *)

(** X21. With a hosted provider whose two calls both raise, whatever
    they raise, [process_query] does not raise: the analysis falls back
    to the general query type and the reply to the data line with the
    signature, and the result is a success. *)
Theorem process_query_survives_a_dead_hosted_backend :
  forall (c : ai_client) (p : parsed_email) (w : world datetime)
         (e1 e2 : exn_class),
    client_provider c <> Local ->
    client_llm c (calls w) = Raise e1 ->
    client_llm c (S (calls w)) = Raise e2 ->
    process_query json_loads datetime upcoming_text notes_text classes_text
                  c p w
    = (Ok (JDict [("success", JBool true);
                  ("message",
                   JStr "General query - no specific data retrieved.

- Jarvis")]),
       with_calls (S (S (calls w))) w).
Proof.
  intros c p w e1 e2 Hp H1 H2.
  unfold process_query, ask_json, Client.generate_json, Client.generate.
  destruct (client_provider c); try (exfalso; apply Hp; reflexivity);
    rewrite H1; cbn; rewrite H2; reflexivity.
Qed.

End Pipeline.


(** X17 at a hosted and at a local provider whose backend only answers
    in prose. *)
Lemma failed_classification_witness :
  sample_process_email (hosted_client prose_backend) due_question sample_world
  = (Ok (JDict [("success", JBool true); ("message", JStr general_message)]),
     with_calls 1 sample_world)
  /\ sample_process_email (local_client prose_backend) due_question
                          sample_world
     = (Ok (JDict [("success", JBool true);
                   ("message", JStr general_message)]),
        with_calls 3 sample_world).
Proof.
  pose proof (failed_classification_gets_the_guidance_reply
                sample_json_loads Z (fun _ => None)
                (fun _ => EmptyString) (fun _ => EmptyString)
                (fun _ => EmptyString) "2024-10-01T09:00:00"
                sample_process_note
                (fun _ _ => EmptyString) (fun _ _ => Ok EmptyString)
                (fun _ => EmptyString)) as H.
  split.
  - apply (proj1 (H (hosted_client prose_backend) due_question sample_world)).
    + simpl. discriminate.
    + right. eexists. split; reflexivity.
  - apply (proj2 (H (local_client prose_backend) due_question sample_world)).
    + reflexivity.
    + intros k Hk. eexists. split; reflexivity.
Defined.

(** X18 at a class created as Data Mining and asked for again in upper
    case. *)
Lemma get_or_create_witness :
  get_or_create Z (fun _ => EmptyString) one_class_db (JStr "DATA MINING")
  = (Ok 1%Z, one_class_db)
  /\ assignments one_class_db = assignments (db sample_world)
  /\ (classes one_class_db = classes (db sample_world)
      \/ classes one_class_db
         = (classes (db sample_world) ++ [(1%Z, "Data Mining")])%list).
Proof.
  apply (get_or_create_is_idempotent_up_to_case
           Z (fun _ => EmptyString) (db sample_world) one_class_db
           "Data Mining" "DATA MINING" 1%Z);
    reflexivity.
Defined.


(** X20 at an extraction with a class and an ISO due date and no title:
    the class Data Mining is left behind. *)
Lemma missing_title_witness :
  more_process_assignment (hosted_client untitled_backend) due_question
                          sample_world
  = (Raise KeyError,
     with_db {| classes := [(1%Z, "Data Mining")]; assignments := [] |}
             (with_calls 1 sample_world)).
Proof.
  apply (missing_title_raises_after_the_class_is_created
           more_json_loads Z one_fromisoformat
           (fun _ => EmptyString) (fun _ => EmptyString)
           (fun _ => EmptyString) "2024-10-01T09:00:00"
           (hosted_client untitled_backend) due_question sample_world
           (with_calls 1 sample_world)
           [("class_name", JStr "Data Mining");
            ("due_date", JStr "2024-10-25T23:59:00")]
           "2024-10-25T23:59:00" "Data Mining" 20241025235900%Z);
    try reflexivity; discriminate.
Defined.

(** X21 at a hosted provider that cannot be reached. *)
Lemma dead_backend_witness :
  more_process_query (hosted_client dead_backend) due_question sample_world
  = (Ok (JDict [("success", JBool true);
                ("message",
                 JStr "General query - no specific data retrieved.

- Jarvis")]),
     with_calls 2 sample_world).
Proof.
  apply (process_query_survives_a_dead_hosted_backend
           more_json_loads Z
           (fun _ _ => EmptyString) (fun _ _ => Ok EmptyString)
           (fun _ => EmptyString)
           (hosted_client dead_backend) due_question sample_world
           ConnectionError ConnectionError).
  - simpl. discriminate.
  - reflexivity.
  - reflexivity.
Defined.

End PipelineMore.

(* ================================================================== *)
(** * Properties of the application glue *)
(* ================================================================== *)

Module AppProps.

Import Str StrAux Json Processor App Samples PipelineAux StrFacts.
Local Open Scope string_scope.

(** ** The processed-emails table *)

Lemma is_processed_app (t1 t2 : processed_emails) (email_id : string) :
  is_processed (t1 ++ t2)%list email_id
  = (is_processed t1 email_id || is_processed t2 email_id)%bool.
Proof.
  induction t1 as [| [eid s] rest IH]; simpl; [reflexivity |].
  rewrite IH, orb_assoc. reflexivity.
Qed.

Lemma create_records (t : processed_emails) (email_id subject : string) :
  is_processed (snd (create t email_id subject)) email_id = true.
Proof.
  unfold create. destruct (is_processed t email_id) eqn:H; [exact H |].
  cbn [snd]. rewrite is_processed_app. simpl.
  rewrite String.eqb_refl, orb_true_r. reflexivity.
Qed.

(** X22. Marking and checking round-trip: after
    [ProcessedEmails.create] an email id is reported as processed, every
    other id is reported as before, and marking the same id again adds
    no row and returns no id, whatever the subject. *)
Theorem marking_an_email_processed_round_trips :
  forall (t : processed_emails) (email_id subject subject' other : string),
    is_processed (snd (create t email_id subject)) email_id = true
    /\ (other <> email_id ->
        is_processed (snd (create t email_id subject)) other
        = is_processed t other)
    /\ create (snd (create t email_id subject)) email_id subject'
       = (None, snd (create t email_id subject)).
Proof.
  intros t email_id subject subject' other.
  split; [apply create_records |]. split.
  - intros Hne. unfold create.
    destruct (is_processed t email_id); [reflexivity |].
    cbn [snd]. rewrite is_processed_app. simpl.
    destruct (String.eqb_spec email_id other) as [Heq | _];
      [exfalso; apply Hne; symmetry; exact Heq |].
    rewrite !orb_false_r. reflexivity.
  - unfold create at 1. rewrite create_records. reflexivity.
Qed.

(** The theorem at an empty table. *)
Lemma marking_witness :
  is_processed (snd (create [] "17" "Question")) "17" = true
  /\ is_processed (snd (create [] "17" "Question")) "18"
     = is_processed [] "18"
  /\ create (snd (create [] "17" "Question")) "17" "Again"
     = (None, snd (create [] "17" "Question")).
Proof.
  destruct (marking_an_email_processed_round_trips
              [] "17" "Question" "Again" "18") as (H1 & H2 & H3).
  split; [exact H1 |]. split; [apply H2; discriminate | exact H3].
Defined.

Lemma marked_mail_not_handled :
  forall (t : processed_emails) (email_id subject : string)
         (imap : option Poller.imap_session) (callback : Poller.handler),
    ~ In email_id
         (Poller.handled_ids
            (snd (Poller.poll imap callback
                    (Some (is_email_processed
                             (snd (create t email_id subject))))))).
Proof.
  intros t email_id subject imap callback Hin.
  assert (Hgate : Poller.already_processed
                    (Some (is_email_processed
                             (snd (create t email_id subject)))) email_id
                  = true).
  { unfold Poller.already_processed, is_email_processed.
    rewrite create_records. reflexivity. }
  unfold Poller.poll in Hin.
  destruct (Poller.get_unread_emails imap) as [[emails |] | e];
    [| exact Hin | destruct (isinstance e Exception); exact Hin].
  destruct emails as [| em rest]; [exact Hin |].
  assert (Hlog : In email_id
            (Poller.handled_ids
               (snd (Poller.poll_each callback
                       (Some (is_email_processed
                                (snd (create t email_id subject))))
                       (em :: rest) [])))).
  { destruct (Poller.poll_each callback _ (em :: rest) [])
      as [[u | e] log]; simpl in *; [exact Hin |].
    destruct (isinstance e Exception); exact Hin. }
  destruct (PollerMore.poll_each_gate _ _ _ _ _ Hlog) as [[] | [Hfree _]].
  rewrite Hgate in Hfree. discriminate Hfree.
Qed.

(** X23. Through the idempotency check of the application, a poll never
    hands to the handler a message that has been marked processed,
    whatever the mailbox returns and whatever the handler does: the id
    is not among the ids the poll handled. *)
Theorem marked_mail_is_never_handled_again :
  forall (t : processed_emails) (email_id subject : string)
         (imap : option Poller.imap_session) (callback : Poller.handler),
    existsb (String.eqb email_id)
      (Poller.handled_ids
         (snd (Poller.poll imap callback
                 (Some (is_email_processed
                          (snd (create t email_id subject)))))))
    = false.
Proof.
  intros t email_id subject imap callback.
  destruct (existsb _ _) eqn:Hex; [| reflexivity].
  apply existsb_exists in Hex. destruct Hex as (eid & Hin & Heq).
  apply String.eqb_eq in Heq. subst eid.
  destruct (marked_mail_not_handled t email_id subject imap callback Hin).
Qed.

(** ** The reply address *)









Import AppAux.

(** ** The worker *)

Section Worker.

Variable world : Type.
Variable process_email : parsed_email -> world -> result json * world.

Lemma swallow_exception (e : exn_class) (st : app_state world) :
  isinstance e Exception = true -> swallow world e st = (Ok tt, st).
Proof. intros H. unfold swallow. rewrite H. reflexivity. Qed.

Lemma get_raises_exception (j : json) (k : string) (e : exn_class) :
  get j k = Raise e -> isinstance e Exception = true.
Proof. destruct j; simpl; try (intros H; injection H as <-; reflexivity).
  destruct (assoc k d); discriminate. Qed.

Lemma get_default_raises_exception (j : json) (k : string) (v : json)
    (e : exn_class) :
  get_default j k v = Raise e -> isinstance e Exception = true.
Proof. destruct j; simpl; try (intros H; injection H as <-; reflexivity).
  destruct (assoc k d); discriminate. Qed.

Lemma item_raises_exception (j : json) (k : string) (e : exn_class) :
  item j k = Raise e -> isinstance e Exception = true.
Proof.
  destruct j; simpl; try (intros H; injection H as <-; reflexivity).
  destruct (assoc k d); [discriminate |].
  intros H; injection H as <-; reflexivity.
Qed.

(** The worker raises only what the processor raised past
    [except Exception]. *)
Lemma worker_raises (d : email_data) (st st' : app_state world)
    (e : exn_class) :
  _process_email_worker world process_email d st = (Raise e, st') ->
  isinstance e Exception = false
  /\ exists w, process_email (data_parsed_email d) (app_world st)
               = (Raise e, w).
Proof.
  unfold _process_email_worker.
  destruct (process_email (data_parsed_email d) (app_world st))
    as [[result | e0] w].
  - destruct (get result "success") as [success | e1] eqn:Hs.
    + destruct (truthy success).
      * destruct (item result "message") as [m | e1] eqn:Hm;
          [discriminate |].
        rewrite (swallow_exception _ _ (item_raises_exception _ _ _ Hm)).
        discriminate.
      * destruct (get_default result "message" (JStr "Processing failed"))
          as [m | e1] eqn:Hm; [discriminate |].
        rewrite (swallow_exception _ _
                   (get_default_raises_exception _ _ _ _ Hm)).
        discriminate.
    + rewrite (swallow_exception _ _ (get_raises_exception _ _ _ Hs)).
      discriminate.
  - unfold swallow. destruct (isinstance e0 Exception) eqn:He;
      [discriminate |].
    intros H. injection H as <- _. split; [exact He |]. exists w. reflexivity.
Qed.

Lemma worker_returns (d : email_data) (st : app_state world) :
  (forall e w, process_email (data_parsed_email d) (app_world st)
               = (Raise e, w) -> isinstance e Exception = true) ->
  fst (_process_email_worker world process_email d st) = Ok tt.
Proof.
  intros Hexn.
  destruct (_process_email_worker world process_email d st) as [[[] | e] st'] eqn:Hw; [reflexivity |].
  destruct (worker_raises d st st' e Hw) as (He & w & Hp).
  rewrite (Hexn e w Hp) in He. discriminate He.
Qed.

(** X25. [_process_email_worker] never raises an [Exception].  When the
    processor raises one, no reply is sent and nothing is recorded.  When
    it returns a result with a message, that message is sent to the
    sender as a reply to the subject; the email is marked processed when
    the result's success is true and is not marked otherwise.  When the
    result has no message, a success sends and records nothing, and a
    failure sends the text Processing failed. *)
Theorem worker_replies_and_marks_only_successes :
  forall (d : email_data) (st : app_state world),
    (forall e st',
       _process_email_worker world process_email d st = (Raise e, st') ->
       isinstance e Exception = false)
    /\ (forall e w,
          process_email (data_parsed_email d) (app_world st) = (Raise e, w) ->
          isinstance e Exception = true ->
          _process_email_worker world process_email d st
          = (Ok tt, with_world world w st))
    /\ (forall result w success message,
          process_email (data_parsed_email d) (app_world st)
          = (Ok result, w) ->
          get result "success" = Ok success ->
          item result "message" = Ok message ->
          exists st',
            _process_email_worker world process_email d st = (Ok tt, st')
            /\ app_world st' = w
            /\ outbox st'
               = (outbox st
                  ++ [{| to_address := data_from_address d;
                         sent_subject :=
                           reply_subject (subject (data_parsed_email d));
                         sent_body := message |}])%list
            /\ (if truthy success
                then is_processed (processed st') (data_email_id d) = true
                else processed st' = processed st))
    /\ (forall result w success e,
          process_email (data_parsed_email d) (app_world st)
          = (Ok result, w) ->
          get result "success" = Ok success ->
          item result "message" = Raise e ->
          _process_email_worker world process_email d st
          = (Ok tt,
             if truthy success then with_world world w st
             else send_confirmation world d (JStr "Processing failed") w st)).
Proof.
  intros d st. split; [| split; [| split]].
  - intros e st' H. apply (worker_raises d st st' e H).
  - intros e w Hp He. unfold _process_email_worker. rewrite Hp.
    apply swallow_exception. exact He.
  - intros result w success message Hp Hs Hm.
    unfold _process_email_worker. rewrite Hp, Hs.
    destruct (truthy success).
    + rewrite Hm. eexists. split; [reflexivity |].
      split; [reflexivity |]. split; [reflexivity |].
      cbn [processed mark_processed]. apply create_records.
    + assert (Hd : get_default result "message" (JStr "Processing failed")
                   = Ok message).
      { destruct result; try discriminate Hm. simpl in *.
        destruct (assoc "message" d0); [exact Hm | discriminate Hm]. }
      rewrite Hd. eexists. split; [reflexivity |].
      split; [reflexivity |]. split; reflexivity.
  - intros result w success e Hp Hs Hm.
    unfold _process_email_worker. rewrite Hp, Hs.
    destruct (truthy success).
    + rewrite Hm. apply swallow_exception.
      apply (item_raises_exception _ _ _ Hm).
    + destruct result; try discriminate Hs. simpl in *.
      destruct (assoc "message" d0); [discriminate Hm | reflexivity].
Qed.

(** ** The worker on the queue *)

Lemma worker_step_counts_no_error (q : Queue.processing_queue) :
  Forall uncounted (Queue.queue q) ->
  (forall it, Queue.in_flight q = Some it -> uncounted it) ->
  Forall uncounted (Queue.queue (Queue.worker_step q))
  /\ (forall it, Queue.in_flight (Queue.worker_step q) = Some it ->
                 uncounted it)
  /\ Queue.total_errors (Queue.worker_step q) = Queue.total_errors q.
Proof.
  destruct q as [items r a w hand tp te].
  unfold Queue.worker_step.
  cbn [Queue.queue Queue.running Queue.worker_alive Queue.waiting
       Queue.in_flight Queue.total_errors].
  intros Hq Hf.
  destruct a; cbn [negb]; [| auto].
  destruct hand as [it |].
  - pose proof (Hf it eq_refl) as Hit. unfold uncounted in Hit.
    destruct (Queue.item_callback it (Queue.item_email_data it))
      as [[] | e].
    + cbn. split; [exact Hq |]. split; [| reflexivity].
      intros it' H; discriminate H.
    + rewrite (Hit e eq_refl). cbn. split; [exact Hq |].
      split; [| reflexivity]. intros it' H; discriminate H.
  - destruct w.
    + destruct items as [| it rest].
      * cbn. split; [constructor |]. split; [| reflexivity].
        intros it' H; discriminate H.
      * inversion Hq as [| it0 rest0 Hit Hrest Heq]. cbn.
        split; [exact Hrest |]. split; [| reflexivity].
        intros it' Hsome. injection Hsome as <-. exact Hit.
    + destruct r; cbn; (split; [exact Hq |]); (split; [| reflexivity]);
        intros it' H; discriminate H.
Qed.

Lemma run_counts_no_error (evs : list Queue.event) :
  forall q,
    Forall uncounted (Queue.queue q) ->
    (forall it, Queue.in_flight q = Some it -> uncounted it) ->
    (forall it, In it (QueueAux.submitted_items evs) -> uncounted it) ->
    Queue.total_errors (Queue.run q evs) = Queue.total_errors q.
Proof.
  induction evs as [| ev rest IH]; intros q Hq Hf Hs; [reflexivity |].
  destruct ev as [it |];
    cbn [Queue.run fold_left Queue.apply_event QueueAux.submitted_items] in *.
  - fold (Queue.run (snd (Queue.submit it q)) rest).
    rewrite IH.
    + unfold Queue.submit. destruct (Queue.running q); reflexivity.
    + unfold Queue.submit. destruct (Queue.running q); cbn; [| exact Hq].
      apply Forall_app. split; [exact Hq |].
      constructor; [apply Hs; left; reflexivity | constructor].
    + unfold Queue.submit. destruct (Queue.running q); cbn; exact Hf.
    + intros it' Hin. apply Hs. right. exact Hin.
  - fold (Queue.run (Queue.worker_step q) rest).
    destruct (worker_step_counts_no_error q Hq Hf) as (Hq' & Hf' & He').
    rewrite (IH (Queue.worker_step q) Hq' Hf' Hs). exact He'.
Qed.

(** X26. In the application the queue's error counter never moves:
    every entry carries [_process_email_worker], which catches every
    [Exception] itself, so under every interleaving of submissions and
    worker steps, and whatever the processor does with the messages,
    [total_errors] stays 0: a message whose processing raised is counted
    as processed. *)
Theorem application_queue_counts_no_error :
  forall evs : list Queue.event,
    (forall it, In it (QueueAux.submitted_items evs) ->
                exists d st, it = worker_item world process_email d st) ->
    Queue.total_errors (Queue.run (Queue.start Queue.new_queue) evs) = 0%Z.
Proof.
  intros evs Hitems.
  rewrite (run_counts_no_error evs (Queue.start Queue.new_queue)).
  - reflexivity.
  - constructor.
  - intros it H. discriminate H.
  - intros it Hin. destruct (Hitems it Hin) as (d & st & ->).
    intros e He. cbn [worker_item Queue.item_callback
                      Queue.item_email_data] in He.
    destruct (_process_email_worker world process_email d st) as [[[] | e'] st'] eqn:Hw;
      cbn [fst] in He; [discriminate He |].
    injection He as ->. apply (worker_raises d st st' e Hw).
Qed.

End Worker.

(** X25 at a message whose classification fails (the guidance reply is
    a success) and at one whose processing raises. *)
Lemma worker_witness :
  (exists st',
     _process_email_worker (world Z) prose_pipeline question_data fresh_app
     = (Ok tt, st')
     /\ outbox st'
        = [{| to_address := "fahad@example.com";
              sent_subject := "Re: Question";
              sent_body := JStr general_message |}]
     /\ is_processed (processed st') "17" = true)
  /\ _process_email_worker (world Z) raising_pipeline question_data fresh_app
     = (Ok tt, with_world (world Z) (with_calls 1 sample_world) fresh_app).
Proof.
  destruct (worker_replies_and_marks_only_successes
              (world Z) prose_pipeline question_data fresh_app)
    as (_ & _ & Hok & _).
  destruct (worker_replies_and_marks_only_successes
              (world Z) raising_pipeline question_data fresh_app)
    as (_ & Hraise & _).
  split.
  - destruct (Hok _ _ (JBool true) (JStr general_message)
                  eq_refl eq_refl eq_refl) as (st' & Hw & _ & Hout & Hmark).
    exists st'. split; [exact Hw |]. split; [exact Hout | exact Hmark].
  - exact (Hraise KeyError _ eq_refl eq_refl).
Defined.

(** X26 at two messages whose processing raises [KeyError]: both are
    worked off and counted as processed, none as an error. *)
Lemma application_queue_witness :
  Queue.total_errors (Queue.run (Queue.start Queue.new_queue) app_schedule)
  = 0%Z
  /\ Queue.total_processed
       (Queue.run (Queue.start Queue.new_queue) app_schedule)
     = 2%Z.
Proof.
  split; [| reflexivity].
  apply (application_queue_counts_no_error (world Z) raising_pipeline).
  intros it [<- | [<- | []]]; exists question_data, fresh_app; reflexivity.
Defined.

End AppProps.
